(** * MoodMate endpoints: the sentiment classifier and the chat relay

    A shallow embedding of the two JSON handlers of [endpoints.py]
    ([analyze_sentiment] and [chat]) and of the fragment of Python they are
    written in: dynamically typed JSON values, exceptions caught by the
    handlers' [try]/[except] blocks, IEEE binary64 comparisons, and the single
    outbound [requests.post] call of the relay. *)

From Stdlib Require Import ZArith List String Ascii Bool Lia.
From Stdlib Require Import Floats.SpecFloat DecimalString QArith Lqa.
Close Scope Q_scope.
Import ListNotations.
Local Open Scope list_scope.
#[local] Set Warnings "-register-all".

(* ================================================================= *)
(** ** Python values and exceptions *)

(** What [request.get_json()] and [response.json()] return: JSON decoded by
    Python.  A [dict] keeps the order of its keys; it is an association list
    read by its first binding of a key. *)
Inductive value : Type :=
| PyNone
| PyBool (b : bool)
| PyInt (z : Z)
| PyFloat (f : spec_float)
| PyStr (s : string)
| PyList (l : list value)
| PyDict (d : list (string * value)).

(** The exceptions the handlers can meet.  The first four are raised by the
    interpreter on ill-typed JSON; [Timeout] is [requests.exceptions.Timeout],
    [RequestException] any other [requests] failure, [JSONDecodeError] is
    [json.JSONDecodeError], and [OtherException] anything else a library
    raises (Flask on an unreadable body, TextBlob on a non-string). *)
Inductive exn : Type :=
| TypeError
| KeyError (k : value)
| IndexError
| AttributeError
| Timeout (m : string)
| RequestException (m : string)
| JSONDecodeError (m : string)
| OtherException (m : string).

Inductive result (A : Type) : Type :=
| Ok (a : A)
| Raise (e : exn).
Arguments Ok {A} a.
Arguments Raise {A} e.

Definition bind {A B : Type} (c : result A) (k : A -> result B) : result B :=
  match c with
  | Ok a => k a
  | Raise e => Raise e
  end.

Notation "x <- c ;; k" := (bind c (fun x => k))
  (at level 61, c at next level, right associativity).

(** [try: c except e: h e] *)
Definition try_except {A : Type} (c : result A) (h : exn -> A) : A :=
  match c with
  | Ok a => a
  | Raise e => h e
  end.

(* ================================================================= *)
(** ** IEEE binary64 *)

Definition prec : Z := 53.
Definition emax : Z := 1024.

(** The literals [0.3], [0.9] and [0.95], each the double nearest to the
    decimal, and [0] converted to a float. *)
Definition f_0_3 : spec_float := S754_finite false 5404319552844595 (-54).
Definition f_0_9 : spec_float := S754_finite false 8106479329266893 (-53).
Definition f_0_95 : spec_float := S754_finite false 8556839292003942 (-53).
Definition f_0 : spec_float := S754_zero false.

(** [x > y] and [x < y] on floats. *)
Definition float_gt (x y : spec_float) : bool := SFltb y x.
Definition float_lt (x y : spec_float) : bool := SFltb x y.

Definition float_of_Z (z : Z) : spec_float := binary_normalize prec emax z 0 false.

(* ================================================================= *)
(** ** The operations of Python the handlers use *)

Definition lookup (k : string) (d : list (string * value)) : option value :=
  match find (fun kv => String.eqb (fst kv) k) d with
  | Some kv => Some (snd kv)
  | None => None
  end.

(** [bool(v)], as [not v] and [and] test it *)
Definition truthy (v : value) : bool :=
  match v with
  | PyNone => false
  | PyBool b => b
  | PyInt z => negb (z =? 0)%Z
  | PyFloat f => negb (SFeqb f f_0)
  | PyStr s => negb (String.eqb s EmptyString)
  | PyList l => match l with [] => false | _ :: _ => true end
  | PyDict d => match d with [] => false | _ :: _ => true end
  end.

(** [v == s] for a string literal [s] *)
Definition eq_str (v : value) (s : string) : bool :=
  match v with
  | PyStr s' => String.eqb s' s
  | _ => false
  end.

(** [k in v] for a string literal [k]: a key of a dict, an element of a list,
    a substring of a string; the other values are not containers. *)
Definition contains (k : string) (v : value) : result bool :=
  match v with
  | PyDict d => Ok (match lookup k d with Some _ => true | None => false end)
  | PyList l => Ok (existsb (fun x => eq_str x k) l)
  | PyStr s => Ok (match index 0 k s with Some _ => true | None => false end)
  | _ => Raise TypeError
  end.

(** [v[k]] for a string literal [k] *)
Definition getitem (k : string) (v : value) : result value :=
  match v with
  | PyDict d =>
      match lookup k d with
      | Some x => Ok x
      | None => Raise (KeyError (PyStr k))
      end
  | _ => Raise TypeError
  end.

(** [v.get(k, default)] *)
Definition get (k : string) (default : value) (v : value) : result value :=
  match v with
  | PyDict d =>
      match lookup k d with
      | Some x => Ok x
      | None => Ok default
      end
  | _ => Raise AttributeError
  end.

(** [len(v)].  A string is counted by the characters of its model. *)
Definition len (v : value) : result nat :=
  match v with
  | PyStr s => Ok (String.length s)
  | PyList l => Ok (List.length l)
  | PyDict d => Ok (List.length d)
  | _ => Raise TypeError
  end.

(** [v[-8:]]: the last eight items, or all of them when there are fewer.  A
    dict cannot be sliced. *)
Definition slice_last8 (v : value) : result value :=
  match v with
  | PyList l => Ok (PyList (skipn (List.length l - 8) l))
  | PyStr s => Ok (PyStr (substring (String.length s - 8) 8 s))
  | _ => Raise TypeError
  end.

(** [v[0]].  The keys of a decoded JSON object are strings, so [0] is never
    one of them. *)
Definition index0 (v : value) : result value :=
  match v with
  | PyList (x :: _) => Ok x
  | PyList [] => Raise IndexError
  | PyStr (String c _) => Ok (PyStr (String c EmptyString))
  | PyStr EmptyString => Raise IndexError
  | PyDict _ => Raise (KeyError (PyInt 0))
  | _ => Raise TypeError
  end.

(** The items [for msg in v] goes through: the elements of a list, the
    characters of a string, the keys of a dict. *)
Definition iter (v : value) : result (list value) :=
  match v with
  | PyList l => Ok l
  | PyStr s => Ok (map (fun c => PyStr (String c EmptyString)) (list_ascii_of_string s))
  | PyDict d => Ok (map (fun kv => PyStr (fst kv)) d)
  | _ => Raise TypeError
  end.

(** [str(n)] for an [int] *)
Definition str_int (z : Z) : string := NilZero.string_of_int (Z.to_int z).

(* ================================================================= *)
(** ** HTTP: the handlers' responses and the outbound call *)

(** [jsonify(body), status] *)
Record http_response : Type := jsonify {
  body : list (string * value);
  status : Z
}.

(** The arguments of [requests.post(url, headers=, json=, timeout=)] *)
Record post_call : Type := mk_post {
  url : string;
  headers : list (string * string);
  json : value;
  timeout : Z
}.

(** What the relay reads of the upstream response: [response.status_code],
    [response.text] and the outcome of [response.json()]. *)
Record upstream_response : Type := mk_response {
  status_code : Z;
  text : string;
  response_json : result value
}.

(** A handler as a program over the network: it returns, or it posts and goes
    on from the outcome of the call, a response or an exception of [requests]. *)
Inductive io (A : Type) : Type :=
| Return (a : A)
| RequestsPost (call : post_call) (k : result upstream_response -> io A).
Arguments Return {A} a.
Arguments RequestsPost {A} call k.

(** Running a program against a network; the calls made are logged in order. *)
Fixpoint run {A : Type} (network : post_call -> result upstream_response)
    (p : io A) : A * list post_call :=
  match p with
  | Return a => (a, [])
  | RequestsPost call k =>
      let (a, calls) := run network (k (network call)) in (a, call :: calls)
  end.

Definition GEMINI_API_URL : string :=
  "https://generativelanguage.googleapis.com/v1beta/models/gemini-2.0-flash:generateContent".

(* ================================================================= *)
(** ** The persona prompt *)

Definition system_prompt_head : string :=
"You are MoodMate, a compassionate and supportive AI companion specializing in emotional wellbeing, mood management, and mental health support.

Your purpose is to help people:
- Understand and process their emotions
- Develop healthy coping strategies
- Track and reflect on their mood patterns
- Learn about emotional intelligence and self-care
- Feel heard, validated, and supported in a safe space

Knowledge Base:
".

Definition system_prompt_tail : string :=
"

Guidelines for your responses:
1. Be warm, empathetic, and non-judgmental in all interactions
2. Validate feelings and experiences without dismissing concerns
3. Provide evidence-based coping strategies and emotional regulation techniques
4. Use clear, structured formatting with headings when providing guidance
5. If someone expresses thoughts of self-harm or suicide, provide crisis resources immediately
6. Never diagnose mental health conditions - suggest professional help when appropriate
7. Encourage healthy habits: sleep, exercise, social connection, and self-care
8. Ask thoughtful follow-up questions to better understand emotional states
9. Celebrate progress and positive moments, no matter how small
10. Respect privacy and remind users that their conversations are confidential

Remember: You're a supportive companion, not a replacement for professional mental health care. Focus on empowerment, understanding, and practical emotional support.".

Definition acknowledgment : string :=
"I understand. I'm MoodMate, your caring AI companion for emotional wellbeing and support. I'm here to listen without judgment, help you understand your feelings, and guide you toward healthy coping strategies. Whether you're having a tough day or want to celebrate a win, I'm here for you. How are you feeling today?".

(* ================================================================= *)
(** ** The handlers *)

Section Handlers.

(** [TextBlob(text).sentiment]: polarity and subjectivity of a text, from
    the library's lexicon; it may raise (on a text that is not a string). *)
Variable sentiment : value -> result (spec_float * spec_float).
(** [round(x, 2)] on a float *)
Variable round2 : spec_float -> spec_float.
(** [str(e)] for an exception and [str(v)] for a value that is not a string *)
Variable str_exn : exn -> string.
Variable repr : value -> string.
(** [os.getenv("GEMINI_API_KEY")] and the text [load_knowledge_base()]
    returned at startup *)
Variable GEMINI_API_KEY : option string.
Variable KNOWLEDGE_BASE : string.

(** [str(v)], as an f-string formats [v] *)
Definition str (v : value) : string :=
  match v with
  | PyStr s => s
  | _ => repr v
  end.

(** *** /api/analyze *)

(** The [if]/[elif] chain on the polarity: emoji, mood and color. *)
Definition mood_of_polarity (polarity : spec_float) : string * string * string :=
  if float_gt polarity f_0_3 then
    ("😊", "Happy", "#10b981")%string
  else if float_gt polarity f_0 then
    ("🙂", "Slightly Positive", "#84cc16")%string
  else if float_lt polarity (SFopp f_0_3) then
    ("😢", "Sad", "#ef4444")%string
  else if float_lt polarity f_0 then
    ("😕", "Slightly Negative", "#f97316")%string
  else
    ("😐", "Neutral", "#6b7280")%string.

(** The success body: [jsonify({'emoji': ..., 'status': 'success'})] *)
Definition analysis_result (polarity subjectivity : spec_float) : http_response :=
  let '(emoji, mood, color) := mood_of_polarity polarity in
  jsonify [("emoji", PyStr emoji);
           ("mood", PyStr mood);
           ("polarity", PyFloat (round2 polarity));
           ("subjectivity", PyFloat (round2 subjectivity));
           ("color", PyStr color);
           ("status", PyStr "success")]%string 200.

Definition analyze_sentiment (get_json : result value) : http_response :=
  try_except
    (data <- get_json ;;
     no_text <- (if negb (truthy data) then Ok true
                 else b <- contains "text" data ;; Ok (negb b)) ;;
     if no_text : bool then
       Ok (jsonify [("error", PyStr "No text provided")]%string 400)
     else
       text <- getitem "text" data ;;
       s <- sentiment text ;;
       let polarity := fst s in
       let subjectivity := snd s in
       Ok (analysis_result polarity subjectivity))
    (fun e => jsonify [("error", PyStr (str_exn e))]%string 500).

(** *** /api/chat *)

Definition system_prompt : string :=
  (system_prompt_head ++ KNOWLEDGE_BASE ++ system_prompt_tail)%string.

(** One entry of [contents]: [{"role": role, "parts": [{"text": text}]}] *)
Definition turn (role : string) (text : value) : value :=
  PyDict [("role", PyStr role);
          ("parts", PyList [PyDict [("text", text)]])]%string.

(** [recent_history = chat_history[-8:] if len(chat_history) > 8 else chat_history] *)
Definition recent_history (chat_history : value) : result value :=
  n <- len chat_history ;;
  if (8 <? n)%nat then slice_last8 chat_history else Ok chat_history.

(** The upstream role of a history message:
    ["user" if msg['role'] == "user" else "model"] *)
Definition upstream_role (role : value) : string :=
  if eq_str role "user" then "user"%string else "model"%string.

(** The body of the loop over [recent_history]: the entry appended for
    one message. *)
Definition history_turn (msg : value) : result value :=
  r <- getitem "role" msg ;;
  let role := upstream_role r in
  c <- getitem "content" msg ;;
  Ok (turn role c).

(** The loop [for msg in recent_history: contents.append(...)], on the
    items still to visit. *)
Fixpoint append_history (contents : list value) (msgs : list value)
    : result (list value) :=
  match msgs with
  | [] => Ok contents
  | msg :: rest =>
      entry <- history_turn msg ;;
      append_history (contents ++ [entry]) rest
  end.

Definition generationConfig : value :=
  PyDict [("temperature", PyFloat f_0_9);
          ("topK", PyInt 40);
          ("topP", PyFloat f_0_95);
          ("maxOutputTokens", PyInt 2048)]%string.

Definition safety (category threshold : string) : value :=
  PyDict [("category", PyStr category); ("threshold", PyStr threshold)]%string.

Definition safetySettings : value :=
  PyList [safety "HARM_CATEGORY_HARASSMENT" "BLOCK_MEDIUM_AND_ABOVE";
          safety "HARM_CATEGORY_HATE_SPEECH" "BLOCK_MEDIUM_AND_ABOVE";
          safety "HARM_CATEGORY_SEXUALLY_EXPLICIT" "BLOCK_MEDIUM_AND_ABOVE";
          safety "HARM_CATEGORY_DANGEROUS_CONTENT" "BLOCK_ONLY_HIGH"].

(** The handler up to the outbound call: an early response, or the
    [contents] to post. *)
Inductive prepared : Type :=
| Respond (r : http_response)
| Contents (contents : list value).

Definition build_contents (get_json : result value) : result prepared :=
  data <- get_json ;;
  no_message <- (if negb (truthy data) then Ok true
                 else b <- contains "message" data ;; Ok (negb b)) ;;
  if no_message : bool then
    Ok (Respond (jsonify [("error", PyStr "No message provided")]%string 400))
  else
    user_message <- getitem "message" data ;;
    chat_history <- get "history" (PyList []) data ;;
    let contents := [] in
    let contents := contents ++ [turn "user" (PyStr system_prompt)] in
    let contents := contents ++ [turn "model" (PyStr acknowledgment)] in
    recent <- recent_history chat_history ;;
    msgs <- iter recent ;;
    contents <- append_history contents msgs ;;
    let contents := contents ++ [turn "user" user_message] in
    Ok (Contents contents).

Definition request_body (contents : list value) : value :=
  PyDict [("contents", PyList contents);
          ("generationConfig", generationConfig);
          ("safetySettings", safetySettings)]%string.

Definition post_of (key : string) (contents : list value) : post_call :=
  mk_post GEMINI_API_URL
          [("Content-Type", "application/json"); ("x-goog-api-key", key)]%string
          (request_body contents)
          30.

(** The test that guards the extraction of the generated text: the [and]
    chain, left to right, stopping at the first falsy operand. *)
Definition has_content (response_data : value) : result bool :=
  candidates <- get "candidates" PyNone response_data ;;
  if negb (truthy candidates) then Ok false else
  candidates <- getitem "candidates" response_data ;;
  n <- len candidates ;;
  if negb (0 <? n)%nat then Ok false else
  first <- index0 candidates ;;
  content <- get "content" PyNone first ;;
  if negb (truthy content) then Ok false else
  content <- getitem "content" first ;;
  parts <- get "parts" PyNone content ;;
  if negb (truthy parts) then Ok false else
  parts <- getitem "parts" content ;;
  n <- len parts ;;
  Ok (0 <? n)%nat.

(** [response_data['candidates'][0]['content']['parts'][0]['text']] *)
Definition generated_text (response_data : value) : result value :=
  candidates <- getitem "candidates" response_data ;;
  first <- index0 candidates ;;
  content <- getitem "content" first ;;
  parts <- getitem "parts" content ;;
  part <- index0 parts ;;
  getitem "text" part.

(** The inner [try]/[except:] of the error path: the nested
    [error.message] of the body, the raw body when anything fails. *)
Definition error_message_of (response : upstream_response) : value :=
  let error_text := text response in
  try_except
    (error_json <- response_json response ;;
     error <- get "error" (PyDict []) error_json ;;
     get "message" (PyStr error_text) error)
    (fun _ => PyStr error_text).

(** The handler from the response of the upstream call on. *)
Definition on_response (response : upstream_response) : result http_response :=
  if negb (status_code response =? 200)%Z then
    let error_text := text response in
    let error_message := error_message_of response in
    Ok (jsonify
          [("error", PyStr ("Gemini API Error (Status "
                            ++ str_int (status_code response) ++ "): "
                            ++ str error_message));
           ("status_code", PyInt (status_code response));
           ("details", PyStr error_text)]%string 500)
  else
    response_data <- response_json response ;;
    ok <- has_content response_data ;;
    if ok : bool then
      generated_text <- generated_text response_data ;;
      Ok (jsonify [("response", generated_text);
                   ("status", PyStr "success")]%string 200)
    else
      Ok (jsonify [("error", PyStr "No content generated by Gemini API");
                   ("details", PyStr (str response_data))]%string 500).

(** The [except] clauses of [chat], in their order. *)
Definition chat_except (e : exn) : http_response :=
  match e with
  | Timeout _ =>
      jsonify [("error", PyStr "Request to Gemini API timed out")]%string 504
  | RequestException _ =>
      jsonify [("error", PyStr ("Network error: " ++ str_exn e))]%string 500
  | JSONDecodeError _ =>
      jsonify [("error", PyStr ("JSON decode error: " ++ str_exn e))]%string 500
  | _ =>
      jsonify [("error", PyStr ("Internal server error: " ++ str_exn e))]%string 500
  end.

Definition chat (get_json : result value) : io http_response :=
  match GEMINI_API_KEY with
  | None | Some EmptyString =>
      Return (jsonify
                [("error", PyStr "GEMINI_API_KEY environment variable not set")]%string
                500)
  | Some key =>
      match build_contents get_json with
      | Raise e => Return (chat_except e)
      | Ok (Respond r) => Return r
      | Ok (Contents contents) =>
          RequestsPost (post_of key contents)
            (fun outcome =>
               Return (try_except (response <- outcome ;; on_response response)
                                  chat_except))
      end
  end.

End Handlers.

(* ================================================================= *)
(** ** The vocabulary of the specification *)

Definition is_nan (f : spec_float) : bool :=
  match f with
  | S754_nan => true
  | _ => false
  end.

(** [x <= y] and [x == y] on floats, as the specification's thresholds use them. *)
Definition float_le (x y : spec_float) : bool := SFleb x y.
Definition float_eq (x y : spec_float) : bool := SFeqb x y.

(** The number a double stands for: [m * 2^e] with its sign, as a fraction.
    Infinities and NaN stand for no number. *)
Definition float_value (p : spec_float) : option Q :=
  match p with
  | S754_zero _ => Some 0%Q
  | S754_finite s m e =>
      let n := if s then Zneg m else Zpos m in
      Some (match e with
            | Z0 => inject_Z n
            | Zpos k => inject_Z (n * 2 ^ Zpos k)
            | Zneg k => Qmake n (2 ^ k)%positive
            end)
  | _ => None
  end.

(** The five mood buckets: emoji, mood and color. *)
Definition happy : string * string * string :=
  ("😊", "Happy", "#10b981")%string.
Definition slightly_positive : string * string * string :=
  ("🙂", "Slightly Positive", "#84cc16")%string.
Definition sad : string * string * string :=
  ("😢", "Sad", "#ef4444")%string.
Definition slightly_negative : string * string * string :=
  ("😕", "Slightly Negative", "#f97316")%string.
Definition neutral : string * string * string :=
  ("😐", "Neutral", "#6b7280")%string.

(** The five conditions of the specification's table, in its order. *)
Definition bucket_conditions (p : spec_float) : list bool :=
  [ float_gt p f_0_3;
    float_gt p f_0 && float_le p f_0_3;
    float_lt p (SFopp f_0_3);
    float_le (SFopp f_0_3) p && float_lt p f_0;
    float_eq p f_0 ].

(** The last [k] items of a sequence, in their order. *)
Definition lastn {A : Type} (k : nat) (l : list A) : list A :=
  rev (firstn k (rev l)).

(** A JSON object [{"text": text}] and a chat message [{"role": ..., "content": ...}]. *)
Definition text_request (text : string) : value :=
  PyDict [("text", PyStr text)]%string.
Definition message (role content : string) : value :=
  PyDict [("role", PyStr role); ("content", PyStr content)]%string.

(** A scorer with an empty lexicon: every text is neutral and objective, and
    a value that is not a string is refused. *)
Definition empty_lexicon (text : value) : result (spec_float * spec_float) :=
  match text with
  | PyStr _ => Ok (f_0, f_0)
  | _ => Raise (OtherException "The text argument must be a string")
  end.

(** A key that is absent from an object, or bound to a falsy value ([null],
    an empty list, an empty object): what the relay's guard treats as missing. *)
Definition missing (k : string) (d : list (string * value)) : bool :=
  match lookup k d with
  | Some v => negb (truthy v)
  | None => true
  end.

(** A computation that cannot end in [requests]' timeout exception. *)
Definition is_timeout (e : exn) : bool :=
  match e with
  | Timeout _ => true
  | _ => false
  end.
Definition no_timeout {A : Type} (c : result A) : Prop :=
  forall e, c = Raise e -> is_timeout e = false.

(** The answers of the relay the specification names. *)
Definition config_error : http_response :=
  jsonify [("error", PyStr "GEMINI_API_KEY environment variable not set")]%string 500.
Definition timeout_error : http_response :=
  jsonify [("error", PyStr "Request to Gemini API timed out")]%string 504.
Definition no_content_error (details : string) : http_response :=
  jsonify [("error", PyStr "No content generated by Gemini API");
           ("details", PyStr details)]%string 500.
Definition upstream_error (code : Z) (message details : string) : http_response :=
  jsonify [("error", PyStr ("Gemini API Error (Status " ++ str_int code ++ "): "
                            ++ message));
           ("status_code", PyInt code);
           ("details", PyStr details)]%string 500.
Definition success (generated_text : value) : http_response :=
  jsonify [("response", generated_text); ("status", PyStr "success")]%string 200.

(** A conversation of [n] turns, the caller and the assistant in turn, each
    turn holding its number. *)
Definition conversation (n : nat) : list value :=
  map (fun i => message (if Nat.even i then "user" else "assistant")
                        (str_int (Z.of_nat i)))
      (seq 0 n).

(** A message that carries a role and a content. *)
Definition has_role_and_content (msg : value) : Prop :=
  exists r c, getitem "role" msg = Ok r /\ getitem "content" msg = Ok c.

(* ================================================================= *)
(** ** Sample requests and upstream responses *)

Definition sample_key : string := "secret".
Definition sample_knowledge : string := "Sleep well.".
Definition no_text : exn -> string := fun _ => EmptyString.
Definition no_repr : value -> string := fun _ => EmptyString.

(** [{"message": "hello"}] and the contents the relay builds for it *)
Definition hello_request : list (string * value) :=
  [("message", PyStr "hello")]%string.
Definition hello_contents : list value :=
  [turn "user" (PyStr (system_prompt sample_knowledge));
   turn "model" (PyStr acknowledgment);
   turn "user" (PyStr "hello")].

(** [{"message": "hello", "history": [...20 turns...]}] and the entries of
    its last eight turns *)
Definition long_request : list (string * value) :=
  [("message", PyStr "hello"); ("history", PyList (conversation 20))]%string.

(** A history whose roles are a caller's, an assistant's, an unknown string
    and a number. *)
Definition mixed_request : list (string * value) :=
  [("message", PyStr "hello");
   ("history",
    PyList [message "user" "a"; message "assistant" "b"; message "system" "c";
            PyDict [("role", PyInt 7); ("content", PyStr "d")]])]%string.

(** The body [{"error":{"message":"boom"}}] under status 500. *)
Definition dquote : string := String "034"%char EmptyString.
Definition boom_text : string :=
  ("{" ++ dquote ++ "error" ++ dquote ++ ":{" ++ dquote ++ "message" ++ dquote
   ++ ":" ++ dquote ++ "boom" ++ dquote ++ "}}")%string.
Definition boom_response : upstream_response :=
  mk_response 500 boom_text
    (Ok (PyDict [("error", PyDict [("message", PyStr "boom")])]%string)).

(** A completion with one candidate. *)
Definition walk_json : list (string * value) :=
  [("candidates",
    PyList [PyDict [("content",
                     PyDict [("parts", PyList [PyDict [("text", PyStr "Take a walk.")]]);
                             ("role", PyStr "model")])]])]%string.
Definition walk_response : upstream_response :=
  mk_response 200 EmptyString (Ok (PyDict walk_json)).

Definition always (outcome : result upstream_response)
    : post_call -> result upstream_response :=
  fun _ => outcome.

(* ================================================================= *)
(** ** The scripts of the pages

    [sendMessage] and [addMessage] of the chat page and [analyzeMood] of the
    tracker page, each as one run from the click to the end of its [try]
    block, with no other event in between.  The values are the same JSON
    values, read as JavaScript reads them. *)

(** [Boolean(v)] *)
Definition js_truthy (v : value) : bool :=
  match v with
  | PyNone => false
  | PyBool b => b
  | PyInt z => negb (z =? 0)%Z
  | PyFloat f => negb (SFeqb f f_0) && negb (is_nan f)
  | PyStr s => negb (String.eqb s EmptyString)
  | PyList _ => true
  | PyDict _ => true
  end.

(** [v.k] for the names the scripts read ([response], [status], [error],
    [emoji], ...), none of which a string, an array or a number has: [None]
    when the access throws (on [null]), [Some None] for [undefined]. *)
Definition js_property (k : string) (v : value) : option (option value) :=
  match v with
  | PyNone => None
  | PyDict d => Some (lookup k d)
  | _ => Some None
  end.

(** The arguments of [fetch(url, {method, headers, body: JSON.stringify(...)})],
    the body before it is serialized. *)
Record fetch_call : Type := mk_fetch {
  fetch_url : string;
  fetch_method : string;
  fetch_headers : list (string * string);
  fetch_body : value
}.

(** What comes back: the promise of [fetch] rejects, or it gives a response
    with its [ok] flag and the outcome of [response.json()], [None] when that
    rejects. *)
Inductive fetched : Type :=
| Rejected
| Responded (ok : bool) (data : option value).

Inductive js (A : Type) : Type :=
| Done (a : A)
| Fetch (call : fetch_call) (k : fetched -> js A).
Arguments Done {A} a.
Arguments Fetch {A} call k.

(** Running a script against a server; the requests made are logged. *)
Fixpoint run_js {A : Type} (server : fetch_call -> fetched) (p : js A)
    : A * list fetch_call :=
  match p with
  | Done a => (a, [])
  | Fetch call k =>
      let (a, calls) := run_js server (k (server call)) in (a, call :: calls)
  end.

(** The chat page: the value of the input, the children of [#messages]
    (class name and inner HTML) and the array [chatHistory]. *)
Record chat_page : Type := mk_chat_page {
  userInput : string;
  messages : list (string * string);
  chatHistory : list value
}.

Definition greeting_html : string :=
  ("
                    <div class=" ++ dquote ++ "message-content" ++ dquote ++ ">
                        Hi! I'm MoodMate. How are you feeling today?
                    </div>
                ")%string.

Definition initial_chat_page : chat_page :=
  mk_chat_page EmptyString [("message bot", greeting_html)]%string [].

Definition apology : string := "Sorry, there was an error. Please try again.".

(** [{ role: sender, content: text }] *)
Definition history_entry (sender : string) (text : value) : value :=
  PyDict [("role", PyStr sender); ("content", text)]%string.

(** The tracker page: the textarea, the fields of the result, the error line
    and the button. *)
Record tracker_page : Type := mk_tracker_page {
  moodText : string;
  emoji_text : string;
  moodName_text : string;
  polarity_text : string;
  subjectivity_text : string;
  result_background : string;
  result_border : string;
  result_shown : bool;
  error_text : string;
  error_shown : bool;
  btn_disabled : bool;
  btn_text : string
}.

Section Scripts.

(** [s.trim()], and [String(v)] for a value that is not a string *)
Variable trim : string -> string.
Variable js_repr : option value -> string.

(** [String(v)], as a template literal and [+] with a string format [v];
    [None] is [undefined]. *)
Definition js_string (v : option value) : string :=
  match v with
  | Some (PyStr s) => s
  | _ => js_repr v
  end.

(** What [element.textContent = v] leaves in the element: [null] and
    [undefined] leave it empty. *)
Definition text_content (v : option value) : string :=
  match v with
  | None => EmptyString
  | Some PyNone => EmptyString
  | Some _ => js_string v
  end.

Definition addMessage (text : value) (sender : string) (page : chat_page)
    : chat_page :=
  mk_chat_page
    (userInput page)
    (messages page ++
     [(("message " ++ sender)%string,
       ("<div class=" ++ dquote ++ "message-content" ++ dquote ++ ">"
        ++ js_string (Some text) ++ "</div>")%string)])
    (chatHistory page ++ [history_entry sender text]).

Definition sendMessage (page : chat_page) : js chat_page :=
  let message := trim (userInput page) in
  if String.eqb message EmptyString then Done page
  else
    let page := addMessage (PyStr message) "user" page in
    let page := mk_chat_page EmptyString (messages page) (chatHistory page) in
    Fetch (mk_fetch "/api/chat" "POST"
                    [("Content-Type", "application/json")]%string
                    (PyDict [("message", PyStr message);
                             ("history", PyList (chatHistory page))]%string))
      (fun outcome =>
         Done
           match outcome with
           | Responded _ (Some data) =>
               match js_property "response" data with
               | Some (Some response) =>
                   if js_truthy response then addMessage response "bot" page
                   else page
               | Some None => page
               | None => addMessage (PyStr apology) "bot" page
               end
           | _ => addMessage (PyStr apology) "bot" page
           end).

(** The states the chat page can be in: as loaded, after the visitor has
    typed, after a run of [sendMessage] against any server. *)
Inductive reachable : chat_page -> Prop :=
| reach_loaded : reachable initial_chat_page
| reach_typed (page : chat_page) (typed : string) :
    reachable page ->
    reachable (mk_chat_page typed (messages page) (chatHistory page))
| reach_sent (page : chat_page) (server : fetch_call -> fetched) :
    reachable page ->
    reachable (fst (run_js server (sendMessage page))).

(** The [catch] and [finally] blocks of [analyzeMood]. *)
Definition show_error (text : string) (page : tracker_page) : tracker_page :=
  mk_tracker_page (moodText page) (emoji_text page) (moodName_text page)
    (polarity_text page) (subjectivity_text page)
    (result_background page) (result_border page) (result_shown page)
    text true (btn_disabled page) (btn_text page).

Definition enable_button (page : tracker_page) : tracker_page :=
  mk_tracker_page (moodText page) (emoji_text page) (moodName_text page)
    (polarity_text page) (subjectivity_text page)
    (result_background page) (result_border page) (result_shown page)
    (error_text page) (error_shown page) false "Analyze Mood".

(** The branch that fills and shows the result, [data] being an object. *)
Definition show_result (data : list (string * value)) (page : tracker_page)
    : tracker_page :=
  mk_tracker_page (moodText page)
    (text_content (lookup "emoji" data))
    (text_content (lookup "mood" data))
    (text_content (lookup "polarity" data))
    (text_content (lookup "subjectivity" data))
    (js_string (lookup "color" data) ++ "20")%string
    ("2px solid " ++ js_string (lookup "color" data))%string
    true
    (error_text page) (error_shown page) (btn_disabled page) (btn_text page).

(** [data.error || 'An error occurred'] *)
Definition error_or_default (error : option value) : option value :=
  match error with
  | Some v => if js_truthy v then Some v else Some (PyStr "An error occurred")
  | None => Some (PyStr "An error occurred")
  end.

Definition analyzeMood (page : tracker_page) : js tracker_page :=
  let text := trim (moodText page) in
  let page :=
    mk_tracker_page (moodText page) (emoji_text page) (moodName_text page)
      (polarity_text page) (subjectivity_text page)
      (result_background page) (result_border page) false
      (error_text page) false (btn_disabled page) (btn_text page) in
  if String.eqb text EmptyString then
    Done (show_error "Please write something before analyzing!" page)
  else
    let page :=
      mk_tracker_page (moodText page) (emoji_text page) (moodName_text page)
        (polarity_text page) (subjectivity_text page)
        (result_background page) (result_border page) (result_shown page)
        (error_text page) (error_shown page) true "Analyzing..." in
    Fetch (mk_fetch "/api/analyze" "POST"
                    [("Content-Type", "application/json")]%string
                    (PyDict [("text", PyStr text)]%string))
      (fun outcome =>
         let network_failure :=
           show_error "Network error. Please try again." page in
         let otherwise (data : value) :=
           match js_property "error" data with
           | Some error => show_error (text_content (error_or_default error)) page
           | None => network_failure
           end in
         Done
           (enable_button
              match outcome with
              | Responded ok (Some data) =>
                  if ok then
                    match data with
                    | PyNone => network_failure
                    | PyDict d =>
                        if eq_str (match lookup "status" d with
                                   | Some st => st
                                   | None => PyNone
                                   end) "success"
                        then show_result d page
                        else otherwise data
                    | _ => otherwise data
                    end
                  else otherwise data
              | _ => network_failure
              end)).

End Scripts.

(** An entry as [addMessage] pushes them, from the visitor or from the bot. *)
Definition page_entry (msg : value) : Prop :=
  exists sender text,
    msg = history_entry sender text /\ (sender = "user" \/ sender = "bot")%string.

(** The answer of a handler as the page receives it, its body being valid
    JSON: [response.ok] and the decoded body. *)
Definition deliver (r : http_response) : fetched :=
  Responded ((200 <=? status r)%Z && (status r <=? 299)%Z) (Some (PyDict (body r))).

(* ================================================================= *)
(** ** More vocabulary: answers, errors and ranks *)

Definition bad_request : http_response :=
  jsonify [("error", PyStr "No message provided")]%string 400.

(** The errors of the interpreter: the last [except] clause of [chat] takes
    them. *)
Definition interpreter_error (e : exn) : bool :=
  match e with
  | TypeError | KeyError _ | IndexError | AttributeError => true
  | _ => false
  end.
Definition only_interpreter_errors {A : Type} (c : result A) : Prop :=
  forall e, c = Raise e -> interpreter_error e = true.

Definition internal_error (message : string) : http_response :=
  jsonify [("error", PyStr ("Internal server error: " ++ message))]%string 500.
Definition network_error (message : string) : http_response :=
  jsonify [("error", PyStr ("Network error: " ++ message))]%string 500.


(** The role a history turn is sent under: the caller's turns as [user], the
    assistant's and every other as [model]. *)
Definition sent_as (role : value) : string :=
  match role with
  | PyStr s => if string_dec s "user" then "user"%string else "model"%string
  | _ => "model"%string
  end.

(** The turn of the bot a run of [sendMessage] ends with, by what came back:
    the apology when the request or its decoding failed or the body is [null],
    the reply when the body is an object with a truthy [response], and none
    otherwise. *)
Definition bot_turn_after (outcome : fetched) : option value :=
  match outcome with
  | Rejected => Some (PyStr "Sorry, there was an error. Please try again.")
  | Responded _ None => Some (PyStr "Sorry, there was an error. Please try again.")
  | Responded _ (Some PyNone) =>
      Some (PyStr "Sorry, there was an error. Please try again.")
  | Responded _ (Some (PyDict d)) =>
      match lookup "response" d with
      | Some reply => if js_truthy reply then Some reply else None
      | None => None
      end
  | Responded _ (Some _) => None
  end.

(** The bucket on the other side of zero. *)
Definition mirror (bucket : string * string * string) : string * string * string :=
  if String.eqb (snd (fst bucket)) "Happy" then sad
  else if String.eqb (snd (fst bucket)) "Slightly Positive" then slightly_negative
  else if String.eqb (snd (fst bucket)) "Sad" then happy
  else if String.eqb (snd (fst bucket)) "Slightly Negative" then slightly_positive
  else bucket.

(** The buckets from the saddest to the happiest. *)
Definition rank (bucket : string * string * string) : nat :=
  if String.eqb (snd (fst bucket)) "Happy" then 4
  else if String.eqb (snd (fst bucket)) "Slightly Positive" then 3
  else if String.eqb (snd (fst bucket)) "Slightly Negative" then 1
  else if String.eqb (snd (fst bucket)) "Sad" then 0
  else 2.

(* ================================================================= *)
(** ** More sample inputs *)

(** An input that has no blanks around it is its own trimmed value. *)
Definition no_trim : string -> string := fun s => s.
Definition no_js_repr : option value -> string := fun _ => EmptyString.

(** The request of [long_request] with the older twelve turns left out, and a
    request whose only turn has no content. *)
Definition recent_request : list (string * value) :=
  [("message", PyStr "hello"); ("history", PyList (lastn 8 (conversation 20)))]%string.
Definition broken_request : list (string * value) :=
  [("message", PyStr "hello");
   ("history", PyList [PyDict [("role", PyStr "user")]])]%string.

(** The chat page after the visitor typed [hello], and the tracker page with
    [calm] in its textarea. *)
Definition typed_page : chat_page :=
  mk_chat_page "hello" (messages initial_chat_page) (chatHistory initial_chat_page).
Definition calm_page : tracker_page :=
  mk_tracker_page "calm" EmptyString EmptyString EmptyString EmptyString
                  EmptyString EmptyString false EmptyString false false "Analyze Mood".
Definition offline : fetch_call -> fetched := fun _ => Rejected.

(* ================================================================= *)
(** ** Comparisons of binary64 values *)

Lemma SFcompare_antisym (x y : spec_float) (c : comparison) :
  SFcompare x y = Some c -> SFcompare y x = Some (CompOpp c).
Proof.
  destruct x as [sx | sx | | sx mx ex], y as [sy | sy | | sy my ey];
    simpl; try discriminate;
    try (destruct sx); try (destruct sy);
    intros H; inversion H; subst; try reflexivity.
  all: pose proof (Pos.compare_cont_antisym mx my Eq) as Hm; simpl in Hm;
    rewrite (Z.compare_antisym ex ey), <- Hm;
    destruct (ex ?= ey)%Z; simpl; try reflexivity;
    now destruct (Pos.compare_cont Eq mx my).
Qed.

Lemma SFcompare_total (x y : spec_float) :
  is_nan x = false -> is_nan y = false -> exists c, SFcompare x y = Some c.
Proof.
  destruct x, y; simpl; intros; try discriminate; eauto.
Qed.

(** Unless an operand is NaN, [x <= y] is the negation of [y < x]. *)
Lemma float_le_not_gt (x y : spec_float) :
  is_nan x = false -> is_nan y = false ->
  float_le x y = negb (float_gt x y).
Proof.
  intros Hx Hy. unfold float_le, float_gt, SFleb, SFltb.
  destruct (SFcompare_total x y Hx Hy) as [c Hc].
  rewrite Hc, (SFcompare_antisym _ _ _ Hc). now destruct c.
Qed.

Lemma float_eq_not_lt_gt (x y : spec_float) :
  is_nan x = false -> is_nan y = false ->
  float_eq x y = negb (float_gt x y) && negb (float_lt x y).
Proof.
  intros Hx Hy. unfold float_eq, float_gt, float_lt, SFeqb, SFltb.
  destruct (SFcompare_total x y Hx Hy) as [c Hc].
  rewrite Hc, (SFcompare_antisym _ _ _ Hc). now destruct c.
Qed.

(** The thresholds are ordered: [-0.3 < 0 < 0.3]. *)
Lemma float_gt_0_3_gt_0 (p : spec_float) :
  float_gt p f_0_3 = true -> float_gt p f_0 = true.
Proof.
  destruct p as [s | s | | s m e]; try destruct s; simpl; try discriminate; reflexivity.
Qed.

Lemma float_lt_0_not_gt (p : spec_float) :
  float_lt p f_0 = true -> float_gt p f_0 = false /\ float_gt p f_0_3 = false.
Proof.
  destruct p as [s | s | | s m e]; try destruct s; simpl; try discriminate; now split.
Qed.

Lemma float_lt_neg_0_3_lt_0 (p : spec_float) :
  float_lt p (SFopp f_0_3) = true -> float_lt p f_0 = true.
Proof.
  destruct p as [s | s | | s m e]; try destruct s; simpl; try discriminate; reflexivity.
Qed.

(* ================================================================= *)
(** ** The thresholds as numbers *)

Lemma digits2_pos_bounds (m : positive) :
  (2 ^ (Zpos (digits2_pos m) - 1) <= Zpos m < 2 ^ Zpos (digits2_pos m))%Z.
Proof.
  induction m as [m IH | m IH |]; cbn [digits2_pos].
  1, 2: rewrite Pos2Z.inj_succ;
    replace (Z.succ (Zpos (digits2_pos m)) - 1)%Z
      with (Z.succ (Zpos (digits2_pos m) - 1))%Z by lia;
    rewrite !Z.pow_succ_r by lia;
    generalize dependent (2 ^ (Z.pos (digits2_pos m) - 1))%Z;
    generalize dependent (2 ^ Z.pos (digits2_pos m))%Z; intros; lia.
  cbn. lia.
Qed.

(** A valid double has a mantissa below [2^53], and of at least [2^52] unless
    its exponent is the least one, -1074. *)
Lemma bounded_binary64 (m : positive) (e : Z) :
  bounded prec emax m e = true ->
  (-1074 <= e)%Z /\
  (Zpos m < 9007199254740992)%Z /\
  ((-1074 < e)%Z -> (4503599627370496 <= Zpos m)%Z).
Proof.
  unfold bounded, canonical_mantissa, fexp, emin, prec, emax.
  intros H. apply andb_prop in H as [H _]. apply Z.eqb_eq in H.
  pose proof (digits2_pos_bounds m) as [Hlo Hhi].
  assert (Hd : (Zpos (digits2_pos m) <= 53)%Z) by lia.
  split; [lia | split].
  - change 9007199254740992%Z with (2 ^ 53)%Z.
    eapply Z.lt_le_trans; [exact Hhi |]. apply Z.pow_le_mono_r; lia.
  - intros He. assert (Zpos (digits2_pos m) = 53)%Z as Hd53 by lia.
    rewrite Hd53 in Hlo. exact Hlo.
Qed.

(** On every valid double the comparison with the literal [0.3] decides the
    comparison of its value with the fraction 3/10. *)
Lemma float_gt_0_3_exact (p : spec_float) (q : Q) :
  valid_binary prec emax p = true ->
  float_value p = Some q ->
  float_gt p f_0_3 = true <-> (3 # 10 < q)%Q.
Proof.
  destruct p as [s | s | | s m e]; cbn [float_value valid_binary]; try discriminate.
  - intros _ [= <-]. change (float_gt (S754_zero s) f_0_3) with false.
    split; [discriminate | intros H; inversion H].
  - intros Hb [= <-]. apply bounded_binary64 in Hb as (Hmin & Hhi & Hlo).
    destruct s.
    + change (float_gt (S754_finite true m e) f_0_3) with false.
      split; [discriminate | intros H; exfalso].
      unfold Qlt in H. clear Hhi Hlo.
      destruct e as [| k | k]; cbn [Qnum Qden inject_Z] in H; [lia | | lia].
      assert (Zneg m * 2 ^ Zpos k < 0)%Z
        by (apply Z.mul_neg_pos; [lia | apply Z.pow_pos_nonneg; lia]).
      lia.
    + unfold float_gt, SFltb, f_0_3, SFcompare.
      destruct (Z.compare_spec (-54) e) as [He | He | He].
      * subst e.
        change (Pos.compare_cont Eq 5404319552844595 m)
          with (5404319552844595 ?= m)%positive.
        unfold Qlt. cbn [Qnum Qden]. rewrite Pos2Z.inj_pow.
        change (Z.pos 2 ^ Z.pos 54)%Z with 18014398509481984%Z.
        clear Hmin Hhi Hlo.
        destruct (Pos.compare_spec 5404319552844595 m) as [Hm | Hm | Hm].
        -- subst m. split; [discriminate | intros H; exfalso; lia].
        -- apply Pos2Z.pos_lt_pos in Hm. split; [intros _; lia | reflexivity].
        -- apply Pos2Z.pos_lt_pos in Hm. split; [discriminate | intros H; exfalso; lia].
      * split; [intros _ | reflexivity].
        unfold Qlt. destruct e as [| k | k]; cbn [Qnum Qden inject_Z].
        -- lia.
        -- assert (0 < Zpos m * 2 ^ Zpos k)%Z
             by (apply Z.mul_pos_pos; [lia | apply Z.pow_pos_nonneg; lia]).
           clear Hhi Hlo. lia.
        -- rewrite Pos2Z.inj_pow.
           assert (Hk : (2 ^ Zpos k <= 2 ^ 53)%Z) by (apply Z.pow_le_mono_r; lia).
           change (2 ^ 53)%Z with 9007199254740992%Z in Hk.
           assert (Hm : (4503599627370496 <= Zpos m)%Z) by (apply Hlo; lia).
           clear Hlo. generalize dependent (Z.pos 2 ^ Z.pos k)%Z. intros. lia.
      * split; [discriminate | intros H; exfalso].
        unfold Qlt in H. destruct e as [| k | k]; try lia.
        cbn [Qnum Qden] in H. rewrite Pos2Z.inj_pow in H.
        assert (Hk : (2 ^ 55 <= 2 ^ Zpos k)%Z) by (apply Z.pow_le_mono_r; lia).
        change (2 ^ 55)%Z with 36028797018963968%Z in Hk.
        clear Hlo. generalize dependent (Z.pos 2 ^ Z.pos k)%Z. intros. lia.
Qed.

Lemma SFopp_involutive (x : spec_float) : SFopp (SFopp x) = x.
Proof. destruct x as [s | s | | s m e]; cbn; now rewrite ?negb_involutive. Qed.

Lemma SFcompare_opp (x y : spec_float) :
  SFcompare (SFopp x) (SFopp y) = SFcompare y x.
Proof.
  destruct x as [sx | sx | | sx mx ex], y as [sy | sy | | sy my ey];
    try reflexivity; try (destruct sx); try (destruct sy); try reflexivity.
  all: cbn; pose proof (Pos.compare_cont_antisym mx my Eq) as Hm; cbn in Hm;
    rewrite (Z.compare_antisym ex ey), <- Hm;
    destruct (ex ?= ey)%Z; cbn; try reflexivity;
    now destruct (Pos.compare_cont Eq mx my).
Qed.

(** [p < -c] is [-p > c]. *)
Lemma float_lt_opp (p c : spec_float) :
  float_lt p (SFopp c) = float_gt (SFopp p) c.
Proof.
  unfold float_lt, float_gt, SFltb.
  now rewrite <- (SFcompare_opp (SFopp p) c), SFopp_involutive.
Qed.

Lemma float_value_opp (p : spec_float) (q : Q) :
  float_value p = Some q ->
  exists q', float_value (SFopp p) = Some q' /\
             Qnum q' = (- Qnum q)%Z /\ Qden q' = Qden q.
Proof.
  destruct p as [s | s | | s m e]; cbn [float_value SFopp]; try discriminate.
  - intros [= <-]. now exists 0%Q.
  - intros [= <-]. eexists. split; [reflexivity |].
    destruct s, e as [| k | k]; cbn [negb Qnum Qden inject_Z]; split;
      try reflexivity.
    + now rewrite <- Z.mul_opp_l.
    + now rewrite <- Z.mul_opp_l.
Qed.

Lemma float_lt_neg_0_3_exact (p : spec_float) (q : Q) :
  valid_binary prec emax p = true ->
  float_value p = Some q ->
  float_lt p (SFopp f_0_3) = true <-> (q < - (3 # 10))%Q.
Proof.
  intros Hv Hq. rewrite float_lt_opp.
  destruct (float_value_opp p q Hq) as (q' & Hq' & Hnum & Hden).
  assert (Hv' : valid_binary prec emax (SFopp p) = true)
    by (destruct p; exact Hv).
  rewrite (float_gt_0_3_exact (SFopp p) q' Hv' Hq').
  unfold Qlt. rewrite Hnum, Hden. cbn [Qnum Qden Qopp]. lia.
Qed.

(** The comparisons with zero read the sign. *)
Lemma float_gt_0_exact (p : spec_float) (q : Q) :
  float_value p = Some q ->
  float_gt p f_0 = true <-> (0 < q)%Q.
Proof.
  destruct p as [s | s | | s m e]; cbn [float_value]; try discriminate.
  - intros [= <-]. change (float_gt (S754_zero s) f_0) with false.
    split; [discriminate | intros H; inversion H].
  - intros [= <-]. unfold Qlt.
    destruct s; [change (float_gt (S754_finite true m e) f_0) with false
                |change (float_gt (S754_finite false m e) f_0) with true];
      (split; [try discriminate; intros _ | try reflexivity; intros H; exfalso]);
      destruct e as [| k | k]; cbn [Qnum Qden inject_Z] in *; try lia.
    all: assert (Zneg m * 2 ^ Zpos k < 0)%Z
        by (apply Z.mul_neg_pos; [lia | apply Z.pow_pos_nonneg; lia]);
      assert (0 < Zpos m * 2 ^ Zpos k)%Z
        by (apply Z.mul_pos_pos; [lia | apply Z.pow_pos_nonneg; lia]);
      lia.
Qed.

Lemma float_lt_0_exact (p : spec_float) (q : Q) :
  float_value p = Some q ->
  float_lt p f_0 = true <-> (q < 0)%Q.
Proof.
  destruct p as [s | s | | s m e]; cbn [float_value]; try discriminate.
  - intros [= <-]. change (float_lt (S754_zero s) f_0) with false.
    split; [discriminate | intros H; inversion H].
  - intros [= <-]. unfold Qlt.
    destruct s; [change (float_lt (S754_finite true m e) f_0) with true
                |change (float_lt (S754_finite false m e) f_0) with false];
      (split; [try discriminate; intros _ | try reflexivity; intros H; exfalso]);
      destruct e as [| k | k]; cbn [Qnum Qden inject_Z] in *; try lia.
    all: assert (Zneg m * 2 ^ Zpos k < 0)%Z
        by (apply Z.mul_neg_pos; [lia | apply Z.pow_pos_nonneg; lia]);
      assert (0 < Zpos m * 2 ^ Zpos k)%Z
        by (apply Z.mul_pos_pos; [lia | apply Z.pow_pos_nonneg; lia]);
      lia.
Qed.

(* ================================================================= *)
(** ** The five mood buckets *)

Lemma buckets_distinct :
  NoDup [happy; slightly_positive; sad; slightly_negative; neutral].
Proof.
  repeat constructor; simpl; intuition discriminate.
Qed.

(** The literal [0.3] is the correctly rounded quotient of 3 by 10. *)
Lemma f_0_3_nearest :
  SFdiv prec emax (float_of_Z 3) (float_of_Z 10) = f_0_3.
Proof. vm_compute. reflexivity. Qed.

(** The guard chain, read on the comparisons of doubles. *)
Lemma mood_of_polarity_chain (p : spec_float) :
  is_nan p = false ->
  (mood_of_polarity p = happy <-> float_gt p f_0_3 = true) /\
  (mood_of_polarity p = slightly_positive <->
     float_gt p f_0 = true /\ float_le p f_0_3 = true) /\
  (mood_of_polarity p = sad <-> float_lt p (SFopp f_0_3) = true) /\
  (mood_of_polarity p = slightly_negative <->
     float_le (SFopp f_0_3) p = true /\ float_lt p f_0 = true) /\
  (mood_of_polarity p = neutral <-> float_eq p f_0 = true) /\
  List.length (filter (fun c => c) (bucket_conditions p)) = 1%nat.
Proof.
  intros Hp.
  pose proof (float_gt_0_3_gt_0 p) as H1.
  pose proof (float_lt_0_not_gt p) as H2.
  pose proof (float_lt_neg_0_3_lt_0 p) as H3.
  unfold bucket_conditions.
  rewrite (float_le_not_gt p f_0_3 Hp eq_refl).
  rewrite (float_le_not_gt (SFopp f_0_3) p eq_refl Hp).
  rewrite (float_eq_not_lt_gt p f_0 Hp eq_refl).
  change (float_gt (SFopp f_0_3) p) with (float_lt p (SFopp f_0_3)).
  unfold mood_of_polarity, happy, slightly_positive, sad, slightly_negative, neutral.
  destruct (float_gt p f_0_3) eqn:E1, (float_gt p f_0) eqn:E2,
           (float_lt p (SFopp f_0_3)) eqn:E3, (float_lt p f_0) eqn:E4;
    try (specialize (H1 eq_refl); discriminate H1);
    try (destruct (H2 eq_refl); discriminate);
    try (specialize (H3 eq_refl); discriminate H3);
    simpl; repeat split; intros; try reflexivity; try discriminate;
    intuition discriminate.
Qed.

Lemma float_value_not_nan (p : spec_float) (q : Q) :
  float_value p = Some q -> is_nan p = false.
Proof. destruct p; [reflexivity | discriminate | discriminate | reflexivity]. Qed.

Lemma negb_true_not (b : bool) (P : Prop) :
  (b = true <-> P) -> (negb b = true <-> ~ P).
Proof. destruct b; cbn; intuition discriminate. Qed.

(** The other comparisons of the table, on the value of a valid double. *)
Lemma float_le_0_3_exact (p : spec_float) (q : Q) :
  valid_binary prec emax p = true ->
  float_value p = Some q ->
  float_le p f_0_3 = true <-> (q <= 3 # 10)%Q.
Proof.
  intros Hv Hq.
  rewrite (float_le_not_gt p f_0_3 (float_value_not_nan p q Hq) eq_refl).
  rewrite (negb_true_not _ _ (float_gt_0_3_exact p q Hv Hq)).
  split; [apply Qnot_lt_le | apply Qle_not_lt].
Qed.

Lemma float_le_neg_0_3_exact (p : spec_float) (q : Q) :
  valid_binary prec emax p = true ->
  float_value p = Some q ->
  float_le (SFopp f_0_3) p = true <-> (- (3 # 10) <= q)%Q.
Proof.
  intros Hv Hq.
  rewrite (float_le_not_gt (SFopp f_0_3) p eq_refl (float_value_not_nan p q Hq)).
  change (float_gt (SFopp f_0_3) p) with (float_lt p (SFopp f_0_3)).
  rewrite (negb_true_not _ _ (float_lt_neg_0_3_exact p q Hv Hq)).
  split; [apply Qnot_lt_le | apply Qle_not_lt].
Qed.

Lemma float_eq_0_exact (p : spec_float) (q : Q) :
  float_value p = Some q ->
  float_eq p f_0 = true <-> (q == 0)%Q.
Proof.
  intros Hq.
  rewrite (float_eq_not_lt_gt p f_0 (float_value_not_nan p q Hq) eq_refl).
  rewrite andb_true_iff.
  rewrite (negb_true_not _ _ (float_gt_0_exact p q Hq)).
  rewrite (negb_true_not _ _ (float_lt_0_exact p q Hq)).
  split.
  - intros [H1 H2]. apply Qle_antisym; now apply Qnot_lt_le.
  - intros H. split; apply Qle_not_lt; rewrite H; apply Qle_refl.
Qed.

(** The literal [0.3] is a valid double that lies just below 3/10. *)
Lemma f_0_3_below_three_tenths :
  valid_binary prec emax f_0_3 = true /\
  float_value f_0_3 = Some (5404319552844595 # 18014398509481984)%Q /\
  (5404319552844595 # 18014398509481984 < 3 # 10)%Q.
Proof. repeat split. Qed.

(** C1. For every polarity [p] that is a number (not NaN), the guard chain
    assigns the bucket of the specification's table: Happy exactly when
    [p > 0.3], Slightly Positive exactly when [0 < p <= 0.3], Sad exactly when
    [p < -0.3], Slightly Negative exactly when [-0.3 <= p < 0], Neutral exactly
    when [p == 0]; exactly one of the five conditions holds; the boundary
    values 0.3, -0.3 and 0 fall in Slightly Positive, Slightly Negative and
    Neutral; and on every valid double the table reads the same with the
    thresholds taken as the fractions 3/10, -3/10 and 0. *)
Theorem mood_of_polarity_buckets (p : spec_float) :
  is_nan p = false ->
  (mood_of_polarity p = happy <-> float_gt p f_0_3 = true) /\
  (mood_of_polarity p = slightly_positive <->
     float_gt p f_0 = true /\ float_le p f_0_3 = true) /\
  (mood_of_polarity p = sad <-> float_lt p (SFopp f_0_3) = true) /\
  (mood_of_polarity p = slightly_negative <->
     float_le (SFopp f_0_3) p = true /\ float_lt p f_0 = true) /\
  (mood_of_polarity p = neutral <-> float_eq p f_0 = true) /\
  List.length (filter (fun c => c) (bucket_conditions p)) = 1%nat /\
  mood_of_polarity f_0_3 = slightly_positive /\
  mood_of_polarity (SFopp f_0_3) = slightly_negative /\
  mood_of_polarity f_0 = neutral /\
  (forall q : Q,
      valid_binary prec emax p = true ->
      float_value p = Some q ->
      (mood_of_polarity p = happy <-> (3 # 10 < q)%Q) /\
      (mood_of_polarity p = slightly_positive <-> (0 < q)%Q /\ (q <= 3 # 10)%Q) /\
      (mood_of_polarity p = sad <-> (q < - (3 # 10))%Q) /\
      (mood_of_polarity p = slightly_negative <->
         (- (3 # 10) <= q)%Q /\ (q < 0)%Q) /\
      (mood_of_polarity p = neutral <-> (q == 0)%Q)).
Proof.
  intros Hp.
  destruct (mood_of_polarity_chain p Hp) as (H1 & H2 & H3 & H4 & H5 & H6).
  repeat (split; [assumption || reflexivity |]).
  intros q Hv Hq.
  rewrite H1, H2, H3, H4, H5.
  rewrite (float_gt_0_3_exact p q Hv Hq), (float_gt_0_exact p q Hq),
    (float_le_0_3_exact p q Hv Hq), (float_lt_neg_0_3_exact p q Hv Hq),
    (float_le_neg_0_3_exact p q Hv Hq), (float_lt_0_exact p q Hq),
    (float_eq_0_exact p q Hq).
  repeat split; intros; tauto.
Qed.

(** At the boundary [p = 0.3] the first guard fails and the second decides. *)
Lemma mood_of_polarity_buckets_witness :
  is_nan f_0_3 = false /\ mood_of_polarity f_0_3 = slightly_positive.
Proof.
  split; [reflexivity |].
  apply (proj1 (proj2 (mood_of_polarity_buckets f_0_3 eq_refl))).
  split; reflexivity.
Defined.

(** A NaN polarity fails every comparison and falls through to Neutral. *)
Lemma mood_of_polarity_nan : mood_of_polarity S754_nan = neutral.
Proof. reflexivity. Qed.

(* ================================================================= *)
(** ** /api/analyze *)

Section AnalyzeFacts.

Variable sentiment : value -> result (spec_float * spec_float).
Variable round2 : spec_float -> spec_float.
Variable str_exn : exn -> string.

Let analyze := analyze_sentiment sentiment round2 str_exn.

Lemma lookup_nil (k : string) : lookup k [] = None.
Proof. reflexivity. Qed.

Lemma lookup_some_truthy (k : string) (d : list (string * value)) (v : value) :
  lookup k d = Some v -> truthy (PyDict d) = true.
Proof.
  destruct d; [discriminate | reflexivity].
Qed.

(** Without a ["text"] key the handler answers 400, whatever else the
    object holds. *)
Lemma analyze_sentiment_no_text (d : list (string * value)) :
  lookup "text" d = None ->
  analyze (Ok (PyDict d)) = jsonify [("error", PyStr "No text provided")]%string 400.
Proof.
  intros H. unfold analyze, analyze_sentiment.
  destruct d as [| kv d]; [reflexivity |].
  cbn [bind truthy negb contains]. rewrite H. reflexivity.
Qed.

(** With a ["text"] key the answer is the scorer's, whatever the text. *)
Lemma analyze_sentiment_on_text (d : list (string * value)) (t : value) :
  lookup "text" d = Some t ->
  analyze (Ok (PyDict d)) =
  match sentiment t with
  | Ok s => analysis_result round2 (fst s) (snd s)
  | Raise e => jsonify [("error", PyStr (str_exn e))]%string 500
  end.
Proof.
  intros H. unfold analyze, analyze_sentiment.
  destruct d as [| kv d]; [discriminate H |].
  cbn [bind truthy negb contains]. rewrite H.
  cbn [bind negb getitem]. rewrite H.
  cbn [bind]. destruct (sentiment t); reflexivity.
Qed.

Lemma analysis_result_status (p s : spec_float) :
  status (analysis_result round2 p s) = 200%Z.
Proof.
  unfold analysis_result. now destruct (mood_of_polarity p) as [[? ?] ?].
Qed.

(** The answer to a scored text carries the bucket of its polarity. *)
Lemma analyze_sentiment_answer
    (d : list (string * value)) (t : value) (p s : spec_float)
    (emoji mood color : string) :
  lookup "text" d = Some t ->
  sentiment t = Ok (p, s) ->
  mood_of_polarity p = (emoji, mood, color) ->
  analyze (Ok (PyDict d)) =
  jsonify [("emoji", PyStr emoji);
           ("mood", PyStr mood);
           ("polarity", PyFloat (round2 p));
           ("subjectivity", PyFloat (round2 s));
           ("color", PyStr color);
           ("status", PyStr "success")]%string 200.
Proof.
  intros Ht Hs Hm.
  rewrite (analyze_sentiment_on_text _ _ Ht), Hs. cbn [fst snd].
  unfold analysis_result. now rewrite Hm.
Qed.

(** The handler answers 400 exactly when the body is falsy or holds no
    ["text"]. *)
Lemma analyze_sentiment_400_iff (get_json : result value) :
  status (analyze get_json) = 400%Z <->
  exists data, get_json = Ok data /\
               (truthy data = false \/ contains "text" data = Ok false).
Proof.
  unfold analyze, analyze_sentiment. split.
  - destruct get_json as [data | e]; [| discriminate].
    intros H. exists data. split; [reflexivity |].
    cbn [bind] in H.
    destruct (truthy data); [right | now left].
    cbn [negb] in H.
    destruct (contains "text" data) as [[|] | e]; cbn [bind negb] in H;
      [| reflexivity | discriminate H].
    destruct (getitem "text" data) as [t | e]; [| discriminate H].
    cbn [bind] in H.
    destruct (sentiment t) as [[p s] | e]; [| discriminate H].
    cbn [bind try_except fst snd] in H.
    rewrite analysis_result_status in H. discriminate H.
  - intros (data & -> & [H | H]); cbn [bind].
    + now rewrite H.
    + destruct (truthy data); [| reflexivity].
      cbn [negb]. now rewrite H.
Qed.

(** C2 (amended). A request whose JSON object has no ["text"] field is
    answered 400 with an error body and no analysis; an empty text is not
    refused: it is scored like any other text, and answered 200 whenever the
    scorer returns. *)
Theorem analyze_sentiment_missing_text (d : list (string * value)) :
  (lookup "text" d = None ->
   analyze (Ok (PyDict d)) =
   jsonify [("error", PyStr "No text provided")]%string 400) /\
  (forall p s : spec_float,
     lookup "text" d = Some (PyStr "") ->
     sentiment (PyStr "") = Ok (p, s) ->
     analyze (Ok (PyDict d)) = analysis_result round2 p s /\
     status (analyze (Ok (PyDict d))) = 200%Z).
Proof.
  split.
  - apply analyze_sentiment_no_text.
  - intros p s Ht Hs.
    rewrite (analyze_sentiment_on_text _ _ Ht), Hs. cbn [fst snd].
    split; [reflexivity | apply analysis_result_status].
Qed.

End AnalyzeFacts.

(** C2, as stated, fails on [{"text": ""}]: with no scorer does the handler
    answer 400 to an empty text. *)
Lemma analyze_sentiment_empty_text_not_400 :
  ~ exists sentiment round2 str_exn,
      status (analyze_sentiment sentiment round2 str_exn (Ok (text_request ""))) = 400%Z.
Proof.
  intros (sentiment & round2 & str_exn & H).
  unfold text_request in H.
  rewrite (analyze_sentiment_on_text sentiment round2 str_exn
             [("text", PyStr "")]%string (PyStr "") eq_refl) in H.
  destruct (sentiment (PyStr "")) as [[p s] | e].
  - rewrite analysis_result_status in H. discriminate.
  - discriminate.
Qed.

Lemma analyze_sentiment_missing_text_witness :
  lookup "text" [("mood", PyStr "fine")]%string = None /\
  analyze_sentiment empty_lexicon (fun f => f) (fun _ => EmptyString)
    (Ok (PyDict [("mood", PyStr "fine")]%string)) =
  jsonify [("error", PyStr "No text provided")]%string 400.
Proof.
  split; [reflexivity |].
  apply (proj1 (analyze_sentiment_missing_text empty_lexicon (fun f => f)
                  (fun _ => EmptyString) [("mood", PyStr "fine")]%string)).
  reflexivity.
Defined.

(* ================================================================= *)
(** ** /api/chat: the credential, the outbound call and its outcomes *)

Section RelayFacts.

Variable str_exn : exn -> string.
Variable repr : value -> string.
Variable KNOWLEDGE_BASE : string.

Let relay (key : option string) := chat str_exn repr key KNOWLEDGE_BASE.

(** With a credential, a request that passes the input checks is posted
    once, and the answer is computed from the outcome of that call. *)
Lemma run_chat (key : string) (get_json : result value) (cs : list value)
    (network : post_call -> result upstream_response) :
  key <> EmptyString ->
  build_contents KNOWLEDGE_BASE get_json = Ok (Contents cs) ->
  run network (relay (Some key) get_json) =
  (try_except (response <- network (post_of key cs) ;; on_response repr response)
              (chat_except str_exn),
   [post_of key cs]).
Proof.
  intros Hkey Hcs. unfold relay, chat. rewrite Hcs.
  destruct key as [| a key]; [contradiction | reflexivity].
Qed.

(** Every call the relay makes carries the 30-second timeout. *)
Lemma chat_calls_timeout (key : option string) (get_json : result value)
    (network : post_call -> result upstream_response) :
  Forall (fun call => timeout call = 30%Z) (snd (run network (relay key get_json))).
Proof.
  unfold relay, chat.
  destruct key as [[| a key] |]; try (constructor; fail).
  destruct (build_contents KNOWLEDGE_BASE get_json) as [[r | cs] | e];
    cbn; repeat constructor.
Qed.

(** C7. With no credential in the environment (the variable unset, or set
    to the empty string) the relay answers 500 with its configuration error
    for every request, readable or not, and makes no outbound call. *)
Theorem chat_no_credential (get_json : result value)
    (network : post_call -> result upstream_response) :
  relay None get_json = Return config_error /\
  relay (Some EmptyString) get_json = Return config_error /\
  run network (relay None get_json) = (config_error, []) /\
  run network (relay (Some EmptyString) get_json) = (config_error, []) /\
  status config_error = 500%Z.
Proof.
  repeat split.
Qed.

(** C8. Every outbound call of the relay is made with a timeout of 30
    seconds, and when the call ends in [requests]' timeout exception the relay
    answers 504 with an error body. *)
Theorem chat_timeout (credential : option string) (get_json : result value)
    (network : post_call -> result upstream_response) :
  Forall (fun call => timeout call = 30%Z)
         (snd (run network (relay credential get_json))) /\
  (forall key cs m,
      credential = Some key ->
      key <> EmptyString ->
      build_contents KNOWLEDGE_BASE get_json = Ok (Contents cs) ->
      network (post_of key cs) = Raise (Timeout m) ->
      run network (relay credential get_json) = (timeout_error, [post_of key cs])) /\
  status timeout_error = 504%Z /\
  lookup "error" (body timeout_error) = Some (PyStr "Request to Gemini API timed out").
Proof.
  split; [apply chat_calls_timeout | split; [| split; reflexivity]].
  intros key cs m -> Hkey Hcs Hnet.
  now rewrite (run_chat key get_json cs network Hkey Hcs), Hnet.
Qed.

(** The message of an upstream error: the nested [error.message] of a JSON
    body that has one, the raw body in every other case. *)
Lemma error_message_of_cases (response : upstream_response) :
  error_message_of response =
  match response_json response with
  | Ok (PyDict j) =>
      match lookup "error" j with
      | Some (PyDict e) =>
          match lookup "message" e with
          | Some m => m
          | None => PyStr (text response)
          end
      | Some _ => PyStr (text response)
      | None => PyStr (text response)
      end
  | _ => PyStr (text response)
  end.
Proof.
  unfold error_message_of.
  destruct (response_json response) as [[| | | | | | j] | e]; try reflexivity.
  cbn [bind get try_except].
  destruct (lookup "error" j) as [[| | | | | | e] |]; try reflexivity.
  - cbn [bind get try_except]. destruct (lookup "message" e); reflexivity.
Qed.

(** C5. When the upstream status is not 200 the relay answers 500 with an
    upstream error carrying the status and the raw body, and a message that
    is the nested [error.message] of the body when the body is a JSON object
    with that field, and the raw body when the body is not JSON, or is JSON
    without that field. *)
Theorem chat_upstream_error (key : string) (get_json : result value)
    (cs : list value) (network : post_call -> result upstream_response)
    (response : upstream_response) :
  key <> EmptyString ->
  build_contents KNOWLEDGE_BASE get_json = Ok (Contents cs) ->
  network (post_of key cs) = Ok response ->
  status_code response <> 200%Z ->
  run network (relay (Some key) get_json) =
  (upstream_error (status_code response)
                  (str repr (error_message_of response))
                  (text response),
   [post_of key cs]) /\
  (forall j e m,
      response_json response = Ok (PyDict j) ->
      lookup "error" j = Some (PyDict e) ->
      lookup "message" e = Some (PyStr m) ->
      str repr (error_message_of response) = m) /\
  (forall x,
      response_json response = Raise x ->
      str repr (error_message_of response) = text response) /\
  (forall j,
      response_json response = Ok (PyDict j) ->
      lookup "error" j = None ->
      str repr (error_message_of response) = text response).
Proof.
  intros Hkey Hcs Hnet Hstatus.
  rewrite (run_chat key get_json cs network Hkey Hcs), Hnet.
  split; [| split; [| split]]; cycle 3.
  { intros j Hj He. now rewrite error_message_of_cases, Hj, He. }
  - cbn [bind try_except]. unfold on_response.
    apply Z.eqb_neq in Hstatus. rewrite Hstatus. reflexivity.
  - intros j e m Hj He Hm.
    now rewrite error_message_of_cases, Hj, He, Hm.
  - intros x Hx.
    now rewrite error_message_of_cases, Hx.
Qed.

Lemma missing_get (k : string) (d : list (string * value)) :
  missing k d = true ->
  exists v, get k PyNone (PyDict d) = Ok v /\ truthy v = false.
Proof.
  unfold missing, get. destruct (lookup k d) as [v |]; intros H.
  - exists v. split; [reflexivity |]. now destruct (truthy v).
  - exists PyNone. now split.
Qed.

(** The guard on an object with no usable [candidates]. *)
Lemma has_content_no_candidates (j : list (string * value)) :
  missing "candidates" j = true -> has_content (PyDict j) = Ok false.
Proof.
  intros H. destruct (missing_get _ _ H) as (v & Hv & Hf).
  unfold has_content. rewrite Hv. cbn [bind]. now rewrite Hf.
Qed.

(** The guard on an object whose first candidate is the object [c]. *)
Lemma has_content_first_candidate
    (j c : list (string * value)) (cands : list value) :
  lookup "candidates" j = Some (PyList (PyDict c :: cands)) ->
  has_content (PyDict j) =
  (content <- get "content" PyNone (PyDict c) ;;
   if negb (truthy content) then Ok false else
   content <- getitem "content" (PyDict c) ;;
   parts <- get "parts" PyNone content ;;
   if negb (truthy parts) then Ok false else
   parts <- getitem "parts" content ;;
   n <- len parts ;;
   Ok (0 <? n)%nat).
Proof.
  intros H. unfold has_content. cbn [get getitem]. rewrite H. reflexivity.
Qed.

(** The interpreter's own errors (a missing key, a value of the wrong type)
    are none of them a timeout, so the last [except] clause answers them 500. *)
Lemma no_timeout_ok {A : Type} (a : A) : no_timeout (Ok a).
Proof. intros e H. discriminate H. Qed.

Lemma no_timeout_bind {A B : Type} (c : result A) (k : A -> result B) :
  no_timeout c -> (forall a, no_timeout (k a)) -> no_timeout (bind c k).
Proof.
  intros Hc Hk e. destruct c as [a | e']; cbn.
  - apply Hk.
  - intros H. apply Hc. now injection H as ->.
Qed.

Lemma no_timeout_get (k : string) (dflt v : value) : no_timeout (get k dflt v).
Proof.
  intros e. destruct v; cbn; try (intros H; now inversion H).
  destruct (lookup k d); discriminate.
Qed.

Lemma no_timeout_getitem (k : string) (v : value) : no_timeout (getitem k v).
Proof.
  intros e. destruct v; cbn; try (intros H; now inversion H).
  destruct (lookup k d); intros H; now inversion H.
Qed.

Lemma no_timeout_len (v : value) : no_timeout (len v).
Proof.
  intros e. destruct v; cbn; intros H; now inversion H.
Qed.

Lemma no_timeout_index0 (v : value) : no_timeout (index0 v).
Proof.
  intros e. destruct v as [| | | | [| a s] | [| x l] |]; cbn; intros H; now inversion H.
Qed.

Lemma no_timeout_if {A : Type} (b : bool) (c1 c2 : result A) :
  no_timeout c1 -> no_timeout c2 -> no_timeout (if b then c1 else c2).
Proof. now destruct b. Qed.

Create HintDb no_timeout.
#[local] Hint Resolve no_timeout_ok no_timeout_get no_timeout_getitem
  no_timeout_len no_timeout_index0 : no_timeout.

Ltac no_timeout_steps :=
  repeat first
    [ apply no_timeout_bind; [auto with no_timeout | intros ?]
    | apply no_timeout_if
    | solve [auto with no_timeout] ].

Lemma has_content_no_timeout (response_data : value) :
  no_timeout (has_content response_data).
Proof. unfold has_content. no_timeout_steps. Qed.

Lemma generated_text_no_timeout (response_data : value) :
  no_timeout (generated_text response_data).
Proof. unfold generated_text. no_timeout_steps. Qed.

Lemma chat_except_status (e : exn) :
  is_timeout e = false -> status (chat_except str_exn e) = 500%Z.
Proof. destruct e; cbn; intros H; try reflexivity; discriminate H. Qed.

(** The extraction succeeds only on the expected shape: an object whose
    first candidate is an object with a content object, the first of whose
    parts is an object with a text. *)
Lemma generated_text_shape (response_data t : value) :
  generated_text response_data = Ok t ->
  exists j c cands ct pt parts,
    response_data = PyDict j /\
    lookup "candidates" j = Some (PyList (PyDict c :: cands)) /\
    lookup "content" c = Some (PyDict ct) /\
    lookup "parts" ct = Some (PyList (PyDict pt :: parts)) /\
    lookup "text" pt = Some t.
Proof.
  unfold generated_text. intros H.
  destruct response_data as [| | | | | | j]; try discriminate H.
  cbn [getitem bind] in H.
  destruct (lookup "candidates" j) as [candidates |] eqn:Hc; [| discriminate H].
  cbn [bind] in H.
  destruct candidates as [| | | | [| a s] | [| first cands] |]; try discriminate H.
  cbn [index0 bind] in H.
  destruct first as [| | | | | | c]; try discriminate H.
  cbn [getitem bind] in H.
  destruct (lookup "content" c) as [content |] eqn:Hct; [| discriminate H].
  cbn [bind] in H.
  destruct content as [| | | | | | ct]; try discriminate H.
  cbn [getitem bind] in H.
  destruct (lookup "parts" ct) as [parts |] eqn:Hp; [| discriminate H].
  cbn [bind] in H.
  destruct parts as [| | | | [| a s] | [| part parts] |]; try discriminate H.
  cbn [index0 bind] in H.
  destruct part as [| | | | | | pt]; try discriminate H.
  cbn [getitem] in H.
  destruct (lookup "text" pt) as [t' |] eqn:Ht; [| discriminate H].
  injection H as ->.
  now exists j, c, cands, ct, pt, parts.
Qed.

(** On status 200 the relay answers with the generated text, as extracted,
    or with status 500: there is no third answer. *)
Lemma on_response_200 (response : upstream_response) (response_data : value) :
  status_code response = 200%Z ->
  response_json response = Ok response_data ->
  let answer := try_except (on_response repr response) (chat_except str_exn) in
  (exists t, generated_text response_data = Ok t /\ answer = success t) \/
  ((forall t, generated_text response_data <> Ok t \/ has_content response_data <> Ok true)
   /\ status answer = 500%Z).
Proof.
  intros Hstatus Hjson answer. unfold answer, on_response.
  rewrite Hstatus, Hjson. cbn [Z.eqb Pos.eqb negb bind].
  destruct (has_content response_data) as [[|] | e] eqn:Hok; cbn [bind try_except].
  - destruct (generated_text response_data) as [t | e] eqn:Ht; cbn [bind try_except].
    + left. now exists t.
    + right. split; [intros t; left; discriminate |].
      apply chat_except_status. exact (generated_text_no_timeout _ _ Ht).
  - right. split; [intros t; right; discriminate | reflexivity].
  - right. split; [intros t; right; discriminate |].
    apply chat_except_status. exact (has_content_no_timeout _ _ Hok).
Qed.

(** C6. On an upstream status of 200 with a JSON object as body, the relay
    answers 200 with the text of the first part of the first candidate's
    content, as it stands; and it answers 500 with its no-content error when
    the candidates are missing or empty, when the first candidate has no
    content, and when the content's parts are missing or empty; whatever the
    object, the answer is the extracted text or an error of status 500. *)
Theorem chat_generated_text (key : string) (get_json : result value)
    (cs : list value) (network : post_call -> result upstream_response)
    (response : upstream_response) (j : list (string * value)) :
  key <> EmptyString ->
  build_contents KNOWLEDGE_BASE get_json = Ok (Contents cs) ->
  network (post_of key cs) = Ok response ->
  status_code response = 200%Z ->
  response_json response = Ok (PyDict j) ->
  let answer := run network (relay (Some key) get_json) in
  let no_content := (no_content_error (str repr (PyDict j)), [post_of key cs]) in
  (forall c cands ct pt parts t,
      lookup "candidates" j = Some (PyList (PyDict c :: cands)) ->
      lookup "content" c = Some (PyDict ct) ->
      lookup "parts" ct = Some (PyList (PyDict pt :: parts)) ->
      lookup "text" pt = Some t ->
      answer = (success t, [post_of key cs])) /\
  (missing "candidates" j = true -> answer = no_content) /\
  (forall c cands,
      lookup "candidates" j = Some (PyList (PyDict c :: cands)) ->
      missing "content" c = true ->
      answer = no_content) /\
  (forall c cands ct,
      lookup "candidates" j = Some (PyList (PyDict c :: cands)) ->
      lookup "content" c = Some (PyDict ct) ->
      missing "parts" ct = true ->
      answer = no_content) /\
  ((exists t, generated_text (PyDict j) = Ok t /\
              answer = (success t, [post_of key cs])) \/
   status (fst answer) = 500%Z).
Proof.
  intros Hkey Hcs Hnet Hstatus Hjson answer no_content.
  assert (Hlast : (exists t, generated_text (PyDict j) = Ok t /\
                             answer = (success t, [post_of key cs])) \/
                  status (fst answer) = 500%Z).
  { unfold answer. rewrite (run_chat key get_json cs network Hkey Hcs), Hnet.
    cbn [bind fst].
    destruct (on_response_200 response (PyDict j) Hstatus Hjson)
      as [(t & Ht & Ha) | (_ & H500)].
    - left. exists t. split; [exact Ht | now rewrite Ha].
    - right. exact H500. }
  assert (Hrun : answer =
                 (try_except (ok <- has_content (PyDict j) ;;
                              if ok : bool then
                                t <- generated_text (PyDict j) ;; Ok (success t)
                              else Ok (no_content_error (str repr (PyDict j))))
                             (chat_except str_exn),
                  [post_of key cs])).
  { unfold answer. rewrite (run_chat key get_json cs network Hkey Hcs), Hnet.
    cbn [bind]. unfold on_response. rewrite Hstatus, Hjson. reflexivity. }
  split; [| split; [| split; [| split; [| exact Hlast]]]];
    clear Hlast; rewrite Hrun; unfold no_content; clear Hrun answer no_content.
  - intros c cands ct pt parts t Hc Hct Hp Ht.
    rewrite (has_content_first_candidate _ _ _ Hc).
    unfold generated_text. cbn [get getitem bind index0]. rewrite Hc.
    cbn [bind index0 getitem]. rewrite Hct.
    destruct ct as [| kv ct]; [discriminate Hp |].
    cbn [bind truthy negb get getitem]. rewrite Hp.
    cbn [bind truthy negb len List.length Nat.ltb Nat.leb index0 getitem].
    rewrite Ht. reflexivity.
  - intros H. now rewrite (has_content_no_candidates _ H).
  - intros c cands Hc H.
    rewrite (has_content_first_candidate _ _ _ Hc).
    destruct (missing_get _ _ H) as (v & Hv & Hf).
    rewrite Hv. cbn [bind]. now rewrite Hf.
  - intros c cands ct Hc Hct H.
    rewrite (has_content_first_candidate _ _ _ Hc).
    cbn [get getitem]. rewrite Hct. cbn [bind].
    destruct (truthy (PyDict ct)); [| reflexivity].
    cbn [negb]. destruct (missing_get _ _ H) as (v & Hv & Hf).
    rewrite Hv. cbn [bind]. now rewrite Hf.
Qed.

End RelayFacts.

(* ================================================================= *)
(** ** /api/chat: the history window and the message sequence *)

Section HistoryFacts.

Variable str_exn : exn -> string.
Variable repr : value -> string.
Variable KNOWLEDGE_BASE : string.

Let relay (key : option string) := chat str_exn repr key KNOWLEDGE_BASE.

(** The entry the loop appends for a message. *)
Let forwarded (msg entry : value) : Prop := history_turn msg = Ok entry.

Lemma lastn_skipn {A : Type} (k : nat) (l : list A) :
  lastn k l = skipn (List.length l - k) l.
Proof.
  unfold lastn. rewrite firstn_rev. apply rev_involutive.
Qed.


Lemma length_lastn {A : Type} (k : nat) (l : list A) :
  List.length (lastn k l) = Nat.min k (List.length l).
Proof.
  rewrite lastn_skipn, length_skipn. lia.
Qed.

(** The window of the relay: the last [min n 8] items of a list. *)
Lemma recent_history_list (h : list value) :
  recent_history (PyList h) =
  Ok (PyList (lastn (Nat.min (List.length h) 8) h)).
Proof.
  unfold recent_history. cbn [len bind slice_last8].
  rewrite lastn_skipn.
  destruct (8 <? List.length h)%nat eqn:E.
  - apply Nat.ltb_lt in E. do 3 f_equal. lia.
  - apply Nat.ltb_ge in E.
    replace (List.length h - Nat.min (List.length h) 8)%nat with 0%nat by lia.
    reflexivity.
Qed.

(** The loop appends one entry per message, in order. *)
Lemma append_history_forwarded (msgs window : list value) :
  Forall2 forwarded msgs window ->
  forall contents, append_history contents msgs = Ok (contents ++ window).
Proof.
  induction 1 as [| msg entry msgs window Hmsg _ IH]; intros contents; cbn.
  - now rewrite app_nil_r.
  - unfold forwarded in Hmsg. rewrite Hmsg. cbn [bind].
    rewrite IH, <- app_assoc. reflexivity.
Qed.

(** A message with a role and a content is forwarded, whatever the role;
    it becomes a [user] turn when its role is ["user"] and a [model] turn
    otherwise. *)
Lemma history_turn_role (msg r c : value) :
  getitem "role" msg = Ok r ->
  getitem "content" msg = Ok c ->
  history_turn msg = Ok (turn (upstream_role r) c).
Proof.
  intros Hr Hc. unfold history_turn. now rewrite Hr, Hc.
Qed.

Lemma upstream_role_user (r : value) :
  upstream_role r = "user"%string <-> r = PyStr "user".
Proof.
  unfold upstream_role, eq_str. split.
  - destruct r; try discriminate.
    destruct (String.eqb s "user") eqn:E; [| discriminate].
    apply String.eqb_eq in E. now subst.
  - now intros ->.
Qed.



(** The [contents] of a request with a message and a list as history. *)
Lemma build_contents_history
    (d : list (string * value)) (m : value) (h window : list value) :
  lookup "message" d = Some m ->
  get "history" (PyList []) (PyDict d) = Ok (PyList h) ->
  Forall2 forwarded (lastn (Nat.min (List.length h) 8) h) window ->
  build_contents KNOWLEDGE_BASE (Ok (PyDict d)) =
  Ok (Contents (turn "user" (PyStr (system_prompt KNOWLEDGE_BASE))
                :: turn "model" (PyStr acknowledgment)
                :: window ++ [turn "user" m])).
Proof.
  intros Hm Hh Hw. unfold build_contents.
  destruct d as [| kv d]; [discriminate Hm |].
  cbn [bind truthy negb contains]. rewrite Hm.
  cbn [bind negb getitem]. rewrite Hm. cbn [bind]. rewrite Hh. cbn [bind].
  rewrite recent_history_list. cbn [bind iter].
  rewrite (append_history_forwarded _ _ Hw). reflexivity.
Qed.


Lemma sent_as_upstream_role (r : value) : upstream_role r = sent_as r.
Proof.
  unfold upstream_role, sent_as, eq_str. destruct r; try reflexivity.
  destruct (string_dec s "user") as [-> | Hne]; [reflexivity |].
  destruct (String.eqb s "user") eqn:E; [| reflexivity].
  apply String.eqb_eq in E. contradiction.
Qed.

(** The entries of a window, from the role and the content of each turn. *)
Lemma fields_forwarded (msgs : list value) (fields : list (value * value)) :
  Forall2 (fun msg rc => getitem "role" msg = Ok (fst rc) /\
                         getitem "content" msg = Ok (snd rc)) msgs fields ->
  Forall2 forwarded msgs (map (fun rc => turn (sent_as (fst rc)) (snd rc)) fields).
Proof.
  induction 1 as [| msg [r c] msgs fields [Hr Hc] _ IH]; cbn [map]; constructor.
  - unfold forwarded. cbn [fst snd] in *.
    now rewrite (history_turn_role msg r c Hr Hc), sent_as_upstream_role.
  - exact IH.
Qed.

(** C4. The sequence posted upstream is, in order: the persona instruction
    as a [user] turn, the knowledge base standing in it between two fixed
    texts; the fixed acknowledgment as a [model] turn; one turn for each turn
    of the history window, at most eight and in their order, carrying the
    content of the turn under role [user] when the turn's role is ["user"] and
    under role [model], the assistant's role upstream, otherwise; and the
    current message as a [user] turn, last.  [fields] are the role and the
    content of each turn of the window. *)
Theorem chat_message_sequence
    (key : string) (d : list (string * value)) (m : value)
    (h : list value) (fields : list (value * value)) :
  key <> EmptyString ->
  lookup "message" d = Some m ->
  get "history" (PyList []) (PyDict d) = Ok (PyList h) ->
  Forall2 (fun msg rc => getitem "role" msg = Ok (fst rc) /\
                         getitem "content" msg = Ok (snd rc))
          (lastn (Nat.min (List.length h) 8) h) fields ->
  let entry (role : string) (text : value) :=
    PyDict [("role", PyStr role);
            ("parts", PyList [PyDict [("text", text)]])]%string in
  let window := map (fun rc => entry (sent_as (fst rc)) (snd rc)) fields in
  let contents :=
    [entry "user"%string (PyStr (system_prompt_head ++ KNOWLEDGE_BASE
                          ++ system_prompt_tail)%string);
     entry "model"%string (PyStr acknowledgment)]
    ++ window ++ [entry "user"%string m] in
  let call :=
    mk_post GEMINI_API_URL
            [("Content-Type", "application/json");
             ("x-goog-api-key", key)]%string
            (PyDict [("contents", PyList contents);
                     ("generationConfig", generationConfig);
                     ("safetySettings", safetySettings)]%string)
            30 in
  (exists k, relay (Some key) (Ok (PyDict d)) = RequestsPost call k) /\
  (forall network, snd (run network (relay (Some key) (Ok (PyDict d)))) = [call]) /\
  (List.length window <= 8)%nat /\
  Forall (fun sent => exists c, sent = entry "user"%string c \/ sent = entry "model"%string c)
         window /\
  last contents PyNone = entry "user"%string m.
Proof.
  intros Hkey Hm Hh Hf. cbv zeta.
  pose proof (fields_forwarded _ _ Hf) as Hw.
  pose proof (build_contents_history d m h _ Hm Hh Hw) as Hb.
  destruct key as [| a key]; [contradiction |].
  split; [| split; [| split; [| split]]].
  - unfold relay, chat. rewrite Hb. eexists. reflexivity.
  - intros network. unfold relay, chat. rewrite Hb. reflexivity.
  - rewrite length_map, <- (Forall2_length Hf), length_lastn. lia.
  - clear. induction fields as [| [r c] fields IH]; cbn [map]; constructor; trivial.
    exists c. cbn [fst snd]. unfold sent_as.
    destruct r; auto. destruct (string_dec s "user"); auto.
  - cbn [app]. rewrite !app_comm_cons. apply last_last.
Qed.


End HistoryFacts.

(* ================================================================= *)
(** ** The theorems at sample inputs *)


Lemma chat_message_sequence_witness :
  let h := [message "user" "a"; message "assistant" "b"; message "system" "c";
            PyDict [("role", PyInt 7); ("content", PyStr "d")]%string] in
  let fields := [(PyStr "user", PyStr "a"); (PyStr "assistant", PyStr "b");
                 (PyStr "system", PyStr "c"); (PyInt 7, PyStr "d")]%string in
  let entry (role : string) (text : value) :=
    PyDict [("role", PyStr role);
            ("parts", PyList [PyDict [("text", text)]])]%string in
  sample_key <> EmptyString /\
  lookup "message" mixed_request = Some (PyStr "hello") /\
  get "history" (PyList []) (PyDict mixed_request) = Ok (PyList h) /\
  Forall2 (fun msg rc => getitem "role" msg = Ok (fst rc) /\
                         getitem "content" msg = Ok (snd rc))
          (lastn (Nat.min (List.length h) 8) h) fields /\
  snd (run (always (Raise (RequestException "offline")))
           (chat no_text no_repr (Some sample_key) sample_knowledge
                 (Ok (PyDict mixed_request)))) =
  [mk_post GEMINI_API_URL
           [("Content-Type", "application/json");
            ("x-goog-api-key", sample_key)]%string
           (PyDict [("contents",
                     PyList [entry "user"
                               (PyStr (system_prompt_head ++ sample_knowledge
                                       ++ system_prompt_tail)%string);
                             entry "model"%string (PyStr acknowledgment);
                             entry "user"%string (PyStr "a");
                             entry "model"%string (PyStr "b");
                             entry "model"%string (PyStr "c");
                             entry "model"%string (PyStr "d");
                             entry "user"%string (PyStr "hello")]);
                    ("generationConfig", generationConfig);
                    ("safetySettings", safetySettings)]%string)
           30].
Proof.
  intros h fields entry.
  assert (Hkey : sample_key <> EmptyString) by discriminate.
  assert (Hf : Forall2 (fun msg rc => getitem "role" msg = Ok (fst rc) /\
                                      getitem "content" msg = Ok (snd rc))
                 (lastn (Nat.min (List.length h) 8) h) fields)
    by (repeat constructor).
  split; [exact Hkey | split; [reflexivity | split; [reflexivity | split; [exact Hf |]]]].
  exact (proj1 (proj2 (chat_message_sequence no_text no_repr sample_knowledge
                         sample_key mixed_request (PyStr "hello") h fields
                         Hkey eq_refl eq_refl Hf))
               (always (Raise (RequestException "offline")))).
Defined.

Lemma chat_upstream_error_witness :
  sample_key <> EmptyString /\
  build_contents sample_knowledge (Ok (PyDict hello_request)) =
  Ok (Contents hello_contents) /\
  always (Ok boom_response) (post_of sample_key hello_contents) = Ok boom_response /\
  status_code boom_response <> 200%Z /\
  run (always (Ok boom_response))
      (chat no_text no_repr (Some sample_key) sample_knowledge
            (Ok (PyDict hello_request))) =
  (upstream_error 500 "boom" boom_text, [post_of sample_key hello_contents]).
Proof.
  assert (Hkey : sample_key <> EmptyString) by discriminate.
  assert (Hstatus : status_code boom_response <> 200%Z) by discriminate.
  split; [exact Hkey | split; [reflexivity | split; [reflexivity | split; [exact Hstatus |]]]].
  exact (proj1 (chat_upstream_error no_text no_repr sample_knowledge
                  sample_key (Ok (PyDict hello_request)) hello_contents
                  (always (Ok boom_response)) boom_response
                  Hkey eq_refl eq_refl Hstatus)).
Defined.

Lemma chat_generated_text_witness :
  sample_key <> EmptyString /\
  build_contents sample_knowledge (Ok (PyDict hello_request)) =
  Ok (Contents hello_contents) /\
  always (Ok walk_response) (post_of sample_key hello_contents) = Ok walk_response /\
  status_code walk_response = 200%Z /\
  response_json walk_response = Ok (PyDict walk_json) /\
  run (always (Ok walk_response))
      (chat no_text no_repr (Some sample_key) sample_knowledge
            (Ok (PyDict hello_request))) =
  (success (PyStr "Take a walk."), [post_of sample_key hello_contents]).
Proof.
  assert (Hkey : sample_key <> EmptyString) by discriminate.
  split; [exact Hkey | repeat (split; [reflexivity |])].
  exact (proj1 (chat_generated_text no_text no_repr sample_knowledge
                  sample_key (Ok (PyDict hello_request)) hello_contents
                  (always (Ok walk_response)) walk_response walk_json
                  Hkey eq_refl eq_refl eq_refl eq_refl)
               _ _ _ _ _ _ eq_refl eq_refl eq_refl eq_refl).
Defined.

Lemma chat_timeout_witness :
  sample_key <> EmptyString /\
  build_contents sample_knowledge (Ok (PyDict hello_request)) =
  Ok (Contents hello_contents) /\
  always (Raise (Timeout "Read timed out.")) (post_of sample_key hello_contents) =
  Raise (Timeout "Read timed out.") /\
  run (always (Raise (Timeout "Read timed out.")))
      (chat no_text no_repr (Some sample_key) sample_knowledge
            (Ok (PyDict hello_request))) =
  (timeout_error, [post_of sample_key hello_contents]).
Proof.
  assert (Hkey : sample_key <> EmptyString) by discriminate.
  split; [exact Hkey | split; [reflexivity | split; [reflexivity |]]].
  exact (proj1 (proj2 (chat_timeout no_text no_repr sample_knowledge
                         (Some sample_key) (Ok (PyDict hello_request))
                         (always (Raise (Timeout "Read timed out.")))))
               sample_key hello_contents "Read timed out."%string
               eq_refl Hkey eq_refl eq_refl).
Defined.


(* ================================================================= *)
(** ** /api/chat: the answers and the calls, case by case *)

Section RelayCases.

Variable str_exn : exn -> string.
Variable repr : value -> string.
Variable KNOWLEDGE_BASE : string.

Let relay (key : option string) := chat str_exn repr key KNOWLEDGE_BASE.

Lemma bind_ok_inv {A B : Type} (c : result A) (k : A -> result B) (b : B) :
  bind c k = Ok b -> exists a, c = Ok a /\ k a = Ok b.
Proof. destruct c as [a | e]; [now exists a | discriminate]. Qed.

(** The answer and the calls of the relay, by the credential and the outcome of
    the input checks. *)
Lemma run_chat_cases (credential : option string) (get_json : result value)
    (network : post_call -> result upstream_response) :
  run network (relay credential get_json) =
  match credential with
  | None | Some EmptyString => (config_error, [])
  | Some key =>
      match build_contents KNOWLEDGE_BASE get_json with
      | Raise e => (chat_except str_exn e, [])
      | Ok (Respond r) => (r, [])
      | Ok (Contents cs) =>
          (try_except (response <- network (post_of key cs) ;;
                       on_response repr response)
                      (chat_except str_exn),
           [post_of key cs])
      end
  end.
Proof.
  unfold relay, chat.
  destruct credential as [[| a key] |]; try reflexivity.
  destruct (build_contents KNOWLEDGE_BASE get_json) as [[r | cs] | e]; reflexivity.
Qed.

(** The input checks refuse a request only for its missing message. *)
Lemma build_contents_respond (get_json : result value) (r : http_response) :
  build_contents KNOWLEDGE_BASE get_json = Ok (Respond r) <->
  r = bad_request /\
  exists data, get_json = Ok data /\
               (truthy data = false \/ contains "message" data = Ok false).
Proof.
  unfold build_contents. split.
  - destruct get_json as [data | e]; [| discriminate].
    cbn [bind]. intros H.
    assert (Hno : forall b : bool,
               (if b then Ok (Respond bad_request)
                else user_message <- getitem "message" data ;;
                     chat_history <- get "history" (PyList []) data ;;
                     recent <- recent_history chat_history ;;
                     msgs <- iter recent ;;
                     contents <- append_history
                                   (([] ++ [turn "user" (PyStr (system_prompt KNOWLEDGE_BASE))])
                                    ++ [turn "model" (PyStr acknowledgment)]) msgs ;;
                     Ok (Contents (contents ++ [turn "user" user_message])))
               = Ok (Respond r) -> b = true /\ r = bad_request).
    { intros [|] Hb; [now injection Hb as <- |].
      repeat (apply bind_ok_inv in Hb as (? & _ & Hb)). discriminate Hb. }
    destruct (truthy data) eqn:Ht; cbn [negb bind] in H.
    + destruct (contains "message" data) as [b | e] eqn:Hc; [| discriminate H].
      cbn [bind] in H. apply Hno in H as [Hb ->].
      split; [reflexivity |]. exists data. split; [reflexivity | right].
      destruct b; [discriminate Hb | exact Hc].
    + injection H as <-.
      split; [reflexivity |]. exists data. split; [reflexivity | now left].
  - intros (-> & data & -> & [H | H]); cbn [bind].
    + now rewrite H.
    + destruct (truthy data); [| reflexivity].
      cbn [negb]. now rewrite H.
Qed.

(** After the call the relay answers 200 or 500. *)
Lemma on_response_status (response : upstream_response) (a : http_response) :
  on_response repr response = Ok a ->
  (status a = 200%Z /\ status_code response = 200%Z) \/ status a = 500%Z.
Proof.
  unfold on_response.
  destruct (status_code response =? 200)%Z eqn:E; cbn [negb].
  - apply Z.eqb_eq in E. intros H.
    apply bind_ok_inv in H as (data & _ & H).
    apply bind_ok_inv in H as ([|] & _ & H).
    + apply bind_ok_inv in H as (t & _ & H). injection H as <-. now left.
    + injection H as <-. now right.
  - intros [= <-]. now right.
Qed.

Lemma chat_except_status_cases (e : exn) :
  (status (chat_except str_exn e) = 504%Z /\ is_timeout e = true) \/
  (status (chat_except str_exn e) = 500%Z /\ is_timeout e = false).
Proof. destruct e; cbn; auto. Qed.

End RelayCases.

(* ================================================================= *)
(** ** The errors ill-typed JSON can raise *)

Section InterpreterErrors.

Lemma oie_ok {A : Type} (a : A) : only_interpreter_errors (Ok a).
Proof. intros e H. discriminate H. Qed.

Lemma oie_bind {A B : Type} (c : result A) (k : A -> result B) :
  only_interpreter_errors c -> (forall a, only_interpreter_errors (k a)) ->
  only_interpreter_errors (bind c k).
Proof.
  intros Hc Hk e. destruct c as [a | e']; cbn.
  - apply Hk.
  - intros H. apply Hc. now injection H as ->.
Qed.

Lemma oie_if {A : Type} (b : bool) (c1 c2 : result A) :
  only_interpreter_errors c1 -> only_interpreter_errors c2 ->
  only_interpreter_errors (if b then c1 else c2).
Proof. now destruct b. Qed.

Lemma oie_contains (k : string) (v : value) : only_interpreter_errors (contains k v).
Proof. intros e. destruct v; cbn; intros H; now inversion H. Qed.

Lemma oie_getitem (k : string) (v : value) : only_interpreter_errors (getitem k v).
Proof.
  intros e. destruct v; cbn; try (intros H; now inversion H).
  destruct (lookup k d); intros H; now inversion H.
Qed.

Lemma oie_get (k : string) (dflt v : value) : only_interpreter_errors (get k dflt v).
Proof.
  intros e. destruct v; cbn; try (intros H; now inversion H).
  destruct (lookup k d); discriminate.
Qed.

Lemma oie_len (v : value) : only_interpreter_errors (len v).
Proof. intros e. destruct v; cbn; intros H; now inversion H. Qed.

Lemma oie_slice_last8 (v : value) : only_interpreter_errors (slice_last8 v).
Proof. intros e. destruct v; cbn; intros H; now inversion H. Qed.

Lemma oie_iter (v : value) : only_interpreter_errors (iter v).
Proof. intros e. destruct v; cbn; intros H; now inversion H. Qed.

Lemma oie_recent_history (v : value) : only_interpreter_errors (recent_history v).
Proof.
  unfold recent_history. apply oie_bind; [apply oie_len | intros n].
  apply oie_if; [apply oie_slice_last8 | apply oie_ok].
Qed.

Lemma oie_history_turn (msg : value) : only_interpreter_errors (history_turn msg).
Proof.
  unfold history_turn.
  apply oie_bind; [apply oie_getitem | intros r].
  apply oie_bind; [apply oie_getitem | intros c]. apply oie_ok.
Qed.

Lemma oie_append_history (msgs contents : list value) :
  only_interpreter_errors (append_history contents msgs).
Proof.
  revert contents. induction msgs as [| msg msgs IH]; intros contents; cbn.
  - apply oie_ok.
  - apply oie_bind; [apply oie_history_turn | intros entry]. apply IH.
Qed.

(** Once the body is read, the input checks fail only by an error of the
    interpreter. *)
Lemma oie_build_contents (KNOWLEDGE_BASE : string) (data : value) :
  only_interpreter_errors (build_contents KNOWLEDGE_BASE (Ok data)).
Proof.
  unfold build_contents. cbn [bind].
  apply oie_bind.
  { apply oie_if; [apply oie_ok |].
    apply oie_bind; [apply oie_contains | intros b; apply oie_ok]. }
  intros b. apply oie_if; [apply oie_ok |].
  apply oie_bind; [apply oie_getitem | intros m].
  apply oie_bind; [apply oie_get | intros h].
  apply oie_bind; [apply oie_recent_history | intros recent].
  apply oie_bind; [apply oie_iter | intros msgs].
  apply oie_bind; [apply oie_append_history | intros contents]. apply oie_ok.
Qed.

Lemma interpreter_error_no_timeout (e : exn) :
  interpreter_error e = true -> is_timeout e = false.
Proof. now destruct e. Qed.

Lemma chat_except_interpreter_error (str_exn : exn -> string) (e : exn) :
  interpreter_error e = true ->
  chat_except str_exn e = internal_error (str_exn e).
Proof. now destruct e. Qed.

End InterpreterErrors.

(* ================================================================= *)
(** ** /api/chat: what each answer tells *)

Section RelayAnswers.

Variable str_exn : exn -> string.
Variable repr : value -> string.
Variable KNOWLEDGE_BASE : string.

Let relay (key : option string) := chat str_exn repr key KNOWLEDGE_BASE.

(** The answer computed from the outcome of the call. *)
Let after_call (outcome : result upstream_response) : http_response :=
  try_except (response <- outcome ;; on_response repr response)
             (chat_except str_exn).

Lemma after_call_status (outcome : result upstream_response) :
  status (after_call outcome) = 200%Z \/
  status (after_call outcome) = 500%Z \/
  status (after_call outcome) = 504%Z.
Proof.
  unfold after_call. destruct outcome as [response | e]; cbn [bind try_except].
  - destruct (on_response repr response) as [a | e] eqn:H; cbn [try_except].
    + destruct (on_response_status repr response a H) as [[H200 _] | H500]; auto.
    + destruct (chat_except_status_cases str_exn e) as [[H504 _] | [H500 _]]; auto.
  - destruct (chat_except_status_cases str_exn e) as [[H504 _] | [H500 _]]; auto.
Qed.

(** The extraction succeeds only where the guard lets it run. *)
Lemma generated_text_has_content (response_data t : value) :
  generated_text response_data = Ok t -> has_content response_data = Ok true.
Proof.
  intros H.
  destruct (generated_text_shape response_data t H)
    as (j & c & cands & ct & pt & parts & -> & Hc & Hct & Hp & Ht).
  rewrite (has_content_first_candidate j c cands Hc).
  cbn [get getitem]. rewrite Hct.
  destruct ct as [| kv ct]; [discriminate Hp |].
  cbn [bind truthy negb get getitem]. rewrite Hp. reflexivity.
Qed.

(** X1. With a credential, the relay answers 400 exactly when the body is
    read and is falsy or holds no ["message"]; the answer is then the
    bad-request error, nothing is posted, and the history is not looked at. *)
Theorem chat_missing_message (credential : option string)
    (get_json : result value) (network : post_call -> result upstream_response) :
  (status (fst (run network (relay credential get_json))) = 400%Z <->
   (exists key, credential = Some key /\ key <> EmptyString) /\
   (exists data, get_json = Ok data /\
                 (truthy data = false \/ contains "message" data = Ok false))) /\
  (status (fst (run network (relay credential get_json))) = 400%Z ->
   run network (relay credential get_json) = (bad_request, [])).
Proof.
  unfold relay. rewrite run_chat_cases.
  destruct credential as [[| a key] |].
  1, 3: split; [split; [discriminate | intros [(key & Hk & Hne) _]; congruence]
               | discriminate].
  destruct (build_contents KNOWLEDGE_BASE get_json) as [[r | cs] | e] eqn:Hb;
    cbn [fst].
  - apply build_contents_respond in Hb as (-> & Hdata).
    split; [split; [intros _ | reflexivity] | reflexivity].
    split; [| exact Hdata]. eexists. split; [reflexivity | discriminate].
  - assert (Hne : status (after_call (network (post_of (String a key) cs))) <> 400%Z).
    { destruct (after_call_status (network (post_of (String a key) cs)))
        as [H | [H | H]]; rewrite H; discriminate. }
    split; [split; [intros H; now elim Hne |] | intros H; now elim Hne].
    intros [_ Hdata].
    assert (Hr : build_contents KNOWLEDGE_BASE get_json = Ok (Respond bad_request))
      by (apply build_contents_respond; now split).
    rewrite Hb in Hr. discriminate Hr.
  - assert (Hne : status (chat_except str_exn e) <> 400%Z).
    { destruct (chat_except_status_cases str_exn e) as [[H _] | [H _]];
        rewrite H; discriminate. }
    split; [split; [intros H; now elim Hne |] | intros H; now elim Hne].
    intros [_ Hdata].
    assert (Hr : build_contents KNOWLEDGE_BASE get_json = Ok (Respond bad_request))
      by (apply build_contents_respond; now split).
    rewrite Hb in Hr. discriminate Hr.
Qed.

(** X2. Whatever the request and whatever the network answers, the relay
    posts at most once: exactly once when a credential is set and the request
    passes the input checks, and not at all otherwise. There is no second
    attempt after a failure. *)
Theorem chat_single_call (credential : option string)
    (get_json : result value) (network : post_call -> result upstream_response) :
  (List.length (snd (run network (relay credential get_json))) <= 1)%nat /\
  (forall call,
      In call (snd (run network (relay credential get_json))) <->
      exists key cs,
        credential = Some key /\ key <> EmptyString /\
        build_contents KNOWLEDGE_BASE get_json = Ok (Contents cs) /\
        call = post_of key cs).
Proof.
  unfold relay. rewrite run_chat_cases.
  destruct credential as [[| a key] |].
  1, 3: split; [cbn; lia |];
    intros call; split; [intros [] | intros (key & cs & Hk & Hne & _); congruence].
  destruct (build_contents KNOWLEDGE_BASE get_json) as [[r | cs] | e] eqn:Hb;
    cbn [snd List.length].
  1, 3: split; [lia |];
    intros call; split; [intros [] | intros (k & cs & _ & _ & Hcs & _); discriminate Hcs].
  split; [lia |]. intros call. split.
  - intros [<- | []]. exists (String a key), cs.
    repeat split; try reflexivity. discriminate.
  - intros (k & cs' & [= <-] & _ & [= <-] & ->). now left.
Qed.

(** X3. The relay answers 200 exactly when a call was made, the upstream
    answered 200 with a JSON body, and the text of the first part of the first
    candidate could be extracted; the answer is then that text, as it stands. *)
Theorem chat_success_iff (credential : option string)
    (get_json : result value) (network : post_call -> result upstream_response) :
  (status (fst (run network (relay credential get_json))) = 200%Z <->
   exists key cs response response_data t,
     credential = Some key /\ key <> EmptyString /\
     build_contents KNOWLEDGE_BASE get_json = Ok (Contents cs) /\
     network (post_of key cs) = Ok response /\
     status_code response = 200%Z /\
     response_json response = Ok response_data /\
     generated_text response_data = Ok t) /\
  (forall key cs response response_data t,
     credential = Some key -> key <> EmptyString ->
     build_contents KNOWLEDGE_BASE get_json = Ok (Contents cs) ->
     network (post_of key cs) = Ok response ->
     status_code response = 200%Z ->
     response_json response = Ok response_data ->
     generated_text response_data = Ok t ->
     run network (relay credential get_json) = (success t, [post_of key cs])).
Proof.
  assert (Hsucc : forall key cs response response_data t,
     credential = Some key -> key <> EmptyString ->
     build_contents KNOWLEDGE_BASE get_json = Ok (Contents cs) ->
     network (post_of key cs) = Ok response ->
     status_code response = 200%Z ->
     response_json response = Ok response_data ->
     generated_text response_data = Ok t ->
     run network (relay credential get_json) = (success t, [post_of key cs])).
  { intros key cs response data t -> Hne Hcs Hnet Hst Hjs Ht.
    unfold relay. rewrite run_chat_cases, Hcs, Hnet.
    destruct key as [| a key]; [contradiction |].
    cbn [bind]. unfold on_response.
    rewrite Hst, Hjs. cbn [Z.eqb Pos.eqb negb bind].
    now rewrite (generated_text_has_content _ _ Ht), Ht. }
  split; [| exact Hsucc]. split.
  - unfold relay. rewrite run_chat_cases.
    destruct credential as [[| a key] |]; try discriminate.
    destruct (build_contents KNOWLEDGE_BASE get_json) as [[r | cs] | e] eqn:Hb;
      cbn [fst].
    + apply build_contents_respond in Hb as (-> & _). discriminate.
    + destruct (network (post_of (String a key) cs)) as [response | e] eqn:Hnet;
        cbn [bind try_except].
      * intros H.
        destruct (on_response repr response) as [ans | e] eqn:Hon;
          cbn [try_except] in H.
        -- destruct (on_response_status repr response ans Hon) as [[_ Hst] | H500];
             [| rewrite H500 in H; discriminate H].
           unfold on_response in Hon. rewrite Hst in Hon.
           cbn [Z.eqb Pos.eqb negb] in Hon.
           apply bind_ok_inv in Hon as (data & Hjs & Hon).
           apply bind_ok_inv in Hon as ([|] & _ & Hon).
           ++ apply bind_ok_inv in Hon as (t & Ht & _).
              exists (String a key), cs, response, data, t.
              repeat split; trivial. discriminate.
           ++ injection Hon as <-. discriminate H.
        -- destruct (chat_except_status_cases str_exn e) as [[H' _] | [H' _]];
             rewrite H' in H; discriminate H.
      * intros H.
        destruct (chat_except_status_cases str_exn e) as [[H' _] | [H' _]];
          rewrite H' in H; discriminate H.
    + intros H.
      destruct (chat_except_status_cases str_exn e) as [[H' _] | [H' _]];
        rewrite H' in H; discriminate H.
  - intros (key & cs & response & data & t & Hk & Hne & Hcs & Hnet & Hst & Hjs & Ht).
    now rewrite (Hsucc key cs response data t Hk Hne Hcs Hnet Hst Hjs Ht).
Qed.

(** X4. The relay never answers with a status other than 200, 400, 500 and
    504, whatever the request, the credential and the network. *)
Theorem chat_status_codes (credential : option string)
    (get_json : result value) (network : post_call -> result upstream_response) :
  In (status (fst (run network (relay credential get_json))))
     [200; 400; 500; 504]%Z.
Proof.
  unfold relay. rewrite run_chat_cases.
  destruct credential as [[| a key] |]; try (cbn; tauto).
  destruct (build_contents KNOWLEDGE_BASE get_json) as [[r | cs] | e] eqn:Hb;
    cbn [fst].
  - apply build_contents_respond in Hb as (-> & _). cbn. tauto.
  - destruct (after_call_status (network (post_of (String a key) cs)))
      as [H | [H | H]]; unfold after_call in H; rewrite H; cbn; tauto.
  - destruct (chat_except_status_cases str_exn e) as [[H _] | [H _]];
      rewrite H; cbn; tauto.
Qed.

Lemma on_response_no_timeout (response : upstream_response) :
  no_timeout (response_json response) ->
  no_timeout (on_response repr response).
Proof.
  intros Hjs. unfold on_response.
  apply no_timeout_if; [apply no_timeout_ok |].
  apply no_timeout_bind; [exact Hjs | intros data].
  apply no_timeout_bind; [apply has_content_no_timeout | intros ok].
  apply no_timeout_if; [| apply no_timeout_ok].
  apply no_timeout_bind; [apply generated_text_no_timeout | intros t].
  apply no_timeout_ok.
Qed.

(** X5. When neither the reading of the request nor the decoding of the
    upstream body can raise [requests]' timeout, the relay answers 504 exactly
    when a call was made and that call timed out. *)
Theorem chat_timeout_only (credential : option string)
    (get_json : result value) (network : post_call -> result upstream_response) :
  no_timeout get_json ->
  (forall call response,
      network call = Ok response -> no_timeout (response_json response)) ->
  (status (fst (run network (relay credential get_json))) = 504%Z <->
   exists key cs m,
     credential = Some key /\ key <> EmptyString /\
     build_contents KNOWLEDGE_BASE get_json = Ok (Contents cs) /\
     network (post_of key cs) = Raise (Timeout m)).
Proof.
  intros Hreq Hnet. unfold relay. rewrite run_chat_cases.
  assert (H500 : forall e, is_timeout e = false ->
                           status (chat_except str_exn e) <> 504%Z).
  { intros e He. rewrite (chat_except_status str_exn e He). discriminate. }
  destruct credential as [[| a key] |].
  1, 3: split; [discriminate | intros (key & cs & m & Hk & Hne & _); congruence].
  destruct (build_contents KNOWLEDGE_BASE get_json) as [[r | cs] | e] eqn:Hb;
    cbn [fst].
  - apply build_contents_respond in Hb as (-> & _).
    split; [discriminate | intros (k & cs & m & _ & _ & Hcs & _); discriminate Hcs].
  - split.
    + intros H.
      destruct (network (post_of (String a key) cs)) as [response | e] eqn:Hcall;
        cbn [bind try_except] in H.
      * exfalso.
        destruct (on_response repr response) as [ans | e] eqn:Hon;
          cbn [try_except] in H.
        -- destruct (on_response_status repr response ans Hon) as [[H' _] | H'];
             rewrite H' in H; discriminate H.
        -- apply (H500 e); [| exact H].
           exact (on_response_no_timeout response (Hnet _ _ Hcall) e Hon).
      * destruct e as [| | | | m | | |]; try discriminate H.
        exists (String a key), cs, m. repeat split; trivial. discriminate.
    + intros (k & cs' & m & [= <-] & _ & [= <-] & Hcall). now rewrite Hcall.
  - split; [| intros (k & cs & m & _ & _ & Hcs & _); discriminate Hcs].
    intros H. exfalso. apply (H500 e); [| exact H].
    destruct get_json as [data | e'].
    + apply interpreter_error_no_timeout.
      exact (oie_build_contents KNOWLEDGE_BASE data e Hb).
    + apply Hreq. cbn in Hb. now injection Hb as ->.
Qed.

End RelayAnswers.

(* ================================================================= *)
(** ** /api/chat: what the relay reads of the history *)

Section HistoryEdges.

Variable str_exn : exn -> string.
Variable repr : value -> string.
Variable KNOWLEDGE_BASE : string.

Let relay (key : option string) := chat str_exn repr key KNOWLEDGE_BASE.

Let opening : list value :=
  [turn "user" (PyStr (system_prompt KNOWLEDGE_BASE));
   turn "model" (PyStr acknowledgment)].

(** The input checks on an object with a message, from the history on. *)
Lemma build_contents_message (d : list (string * value)) (m : value) :
  lookup "message" d = Some m ->
  build_contents KNOWLEDGE_BASE (Ok (PyDict d)) =
  (chat_history <- get "history" (PyList []) (PyDict d) ;;
   recent <- recent_history chat_history ;;
   msgs <- iter recent ;;
   contents <- append_history opening msgs ;;
   Ok (Contents (contents ++ [turn "user" m]))).
Proof.
  intros Hm. unfold build_contents.
  destruct d as [| kv d]; [discriminate Hm |].
  cbn [bind truthy negb contains]. rewrite Hm.
  cbn [bind negb getitem]. rewrite Hm. reflexivity.
Qed.

Lemma build_contents_list (d : list (string * value)) (m : value) (h : list value) :
  lookup "message" d = Some m ->
  get "history" (PyList []) (PyDict d) = Ok (PyList h) ->
  build_contents KNOWLEDGE_BASE (Ok (PyDict d)) =
  (contents <- append_history opening (lastn (Nat.min (List.length h) 8) h) ;;
   Ok (Contents (contents ++ [turn "user" m]))).
Proof.
  intros Hm Hh. rewrite (build_contents_message d m Hm), Hh.
  cbn [bind]. now rewrite recent_history_list.
Qed.

(** X6. The relay reads the last eight turns of the history and nothing
    before them: two requests with the same message whose histories end in the
    same eight turns run the same program, whatever the older turns hold. *)
Theorem chat_window_only (credential : option string)
    (d1 d2 : list (string * value)) (m : value) (h1 h2 : list value) :
  lookup "message" d1 = Some m ->
  lookup "message" d2 = Some m ->
  get "history" (PyList []) (PyDict d1) = Ok (PyList h1) ->
  get "history" (PyList []) (PyDict d2) = Ok (PyList h2) ->
  lastn (Nat.min (List.length h1) 8) h1 = lastn (Nat.min (List.length h2) 8) h2 ->
  relay credential (Ok (PyDict d1)) = relay credential (Ok (PyDict d2)).
Proof.
  intros Hm1 Hm2 Hh1 Hh2 Hw. unfold relay, chat.
  now rewrite (build_contents_list d1 m h1 Hm1 Hh1),
    (build_contents_list d2 m h2 Hm2 Hh2), Hw.
Qed.

Lemma history_turn_ok (msg entry : value) :
  history_turn msg = Ok entry -> has_role_and_content msg.
Proof.
  unfold history_turn. intros H.
  apply bind_ok_inv in H as (r & Hr & H).
  apply bind_ok_inv in H as (c & Hc & _).
  now exists r, c.
Qed.

Lemma append_history_ok (msgs contents result : list value) :
  append_history contents msgs = Ok result -> Forall has_role_and_content msgs.
Proof.
  revert contents. induction msgs as [| msg msgs IH]; intros contents H.
  - constructor.
  - cbn in H. apply bind_ok_inv in H as (entry & Hentry & H).
    constructor; [exact (history_turn_ok _ _ Hentry) | exact (IH _ H)].
Qed.

(** A turn of the window that lacks a role or a content stops the loop with
    an error of the interpreter. *)
Lemma append_history_malformed (msgs contents : list value) :
  Exists (fun msg => ~ has_role_and_content msg) msgs ->
  exists e, append_history contents msgs = Raise e /\ interpreter_error e = true.
Proof.
  intros Hex.
  destruct (append_history contents msgs) as [result | e] eqn:H.
  - exfalso. apply append_history_ok in H.
    apply Exists_exists in Hex as (msg & Hin & Hbad).
    apply Hbad. rewrite Forall_forall in H. now apply H.
  - exists e. split; [reflexivity |]. exact (oie_append_history msgs contents e H).
Qed.

(** X7. One turn among the last eight that is not an object with a role and
    a content makes the relay refuse the whole request, with its 500 internal
    error, before any call is made. *)
Theorem chat_malformed_turn (key : string) (d : list (string * value))
    (m : value) (h : list value) (network : post_call -> result upstream_response) :
  key <> EmptyString ->
  lookup "message" d = Some m ->
  get "history" (PyList []) (PyDict d) = Ok (PyList h) ->
  Exists (fun msg => ~ has_role_and_content msg)
         (lastn (Nat.min (List.length h) 8) h) ->
  exists e,
    interpreter_error e = true /\
    run network (relay (Some key) (Ok (PyDict d))) = (internal_error (str_exn e), []).
Proof.
  intros Hkey Hm Hh Hex.
  destruct (append_history_malformed _ opening Hex) as (e & He & Hie).
  exists e. split; [exact Hie |].
  unfold relay. rewrite run_chat_cases, (build_contents_list d m h Hm Hh), He.
  destruct key as [| a key]; [contradiction |].
  cbn [bind]. now rewrite (chat_except_interpreter_error str_exn e Hie).
Qed.


(** The loop over a string, or over the keys of an object, fails on its first
    item: a string has no ["role"]. *)
Lemma append_history_string_item (contents rest : list value) (c : string) :
  append_history contents (PyStr c :: rest) = Raise TypeError.
Proof. reflexivity. Qed.



End HistoryEdges.

(* ================================================================= *)
(** ** The buckets along the polarity axis *)

Lemma SFcompare_zero_sign (s : bool) (p : spec_float) :
  SFcompare (S754_zero s) p = SFcompare f_0 p /\
  SFcompare p (S754_zero s) = SFcompare p f_0.
Proof. destruct p as [s' | s' | | s' m e]; now split. Qed.

Lemma float_gt_opp_0 (p : spec_float) :
  float_gt (SFopp p) f_0 = float_lt p f_0 /\
  float_lt (SFopp p) f_0 = float_gt p f_0.
Proof.
  unfold float_gt, float_lt, SFltb.
  change f_0 with (SFopp (S754_zero true)) at 1 3.
  rewrite !SFcompare_opp.
  now rewrite (proj1 (SFcompare_zero_sign true p)),
    (proj2 (SFcompare_zero_sign true p)).
Qed.

Lemma float_gt_opp_0_3 (p : spec_float) :
  float_gt (SFopp p) f_0_3 = float_lt p (SFopp f_0_3) /\
  float_lt (SFopp p) (SFopp f_0_3) = float_gt p f_0_3.
Proof.
  split; [symmetry; apply float_lt_opp |].
  unfold float_gt, float_lt, SFltb. now rewrite SFcompare_opp.
Qed.

(** X9. The thresholds are symmetric about zero: negating a polarity
    mirrors its bucket, Happy with Sad and Slightly Positive with Slightly
    Negative, and Neutral stays Neutral. *)
Theorem mood_of_polarity_opp (p : spec_float) :
  mood_of_polarity (SFopp p) = mirror (mood_of_polarity p).
Proof.
  pose proof (float_gt_0_3_gt_0 p) as H1.
  pose proof (float_lt_0_not_gt p) as H2.
  pose proof (float_lt_neg_0_3_lt_0 p) as H3.
  unfold mood_of_polarity.
  rewrite (proj1 (float_gt_opp_0_3 p)), (proj2 (float_gt_opp_0_3 p)),
    (proj1 (float_gt_opp_0 p)), (proj2 (float_gt_opp_0 p)).
  destruct (float_gt p f_0_3) eqn:E1, (float_gt p f_0) eqn:E2,
           (float_lt p (SFopp f_0_3)) eqn:E3, (float_lt p f_0) eqn:E4;
    try (specialize (H1 eq_refl); discriminate H1);
    try (destruct (H2 eq_refl); discriminate);
    try (specialize (H3 eq_refl); discriminate H3);
    reflexivity.
Qed.

(** The rank of the bucket, read on the value of a valid double. *)
Lemma rank_of_value (p : spec_float) (q : Q) :
  valid_binary prec emax p = true ->
  float_value p = Some q ->
  (rank (mood_of_polarity p) = 4%nat /\ (3 # 10 < q)%Q) \/
  (rank (mood_of_polarity p) = 3%nat /\ (0 < q)%Q /\ (q <= 3 # 10)%Q) \/
  (rank (mood_of_polarity p) = 2%nat /\ (q == 0)%Q) \/
  (rank (mood_of_polarity p) = 1%nat /\ (- (3 # 10) <= q)%Q /\ (q < 0)%Q) \/
  (rank (mood_of_polarity p) = 0%nat /\ (q < - (3 # 10))%Q).
Proof.
  intros Hv Hq.
  destruct (mood_of_polarity_chain p (float_value_not_nan p q Hq))
    as (H1 & H2 & H3 & H4 & H5 & _).
  rewrite (float_gt_0_3_exact p q Hv Hq) in H1.
  rewrite (float_gt_0_exact p q Hq), (float_le_0_3_exact p q Hv Hq) in H2.
  rewrite (float_lt_neg_0_3_exact p q Hv Hq) in H3.
  rewrite (float_le_neg_0_3_exact p q Hv Hq), (float_lt_0_exact p q Hq) in H4.
  rewrite (float_eq_0_exact p q Hq) in H5.
  unfold mood_of_polarity in *.
  destruct (float_gt p f_0_3);
    [left; split; [reflexivity | now apply H1] |].
  destruct (float_gt p f_0);
    [right; left; split; [reflexivity | now apply H2] |].
  destruct (float_lt p (SFopp f_0_3));
    [do 4 right; split; [reflexivity | now apply H3] |].
  destruct (float_lt p f_0);
    [do 3 right; left; split; [reflexivity | now apply H4] |].
  right; right; left. split; [reflexivity | now apply H5].
Qed.

(** X10. The buckets follow the polarity: of two valid doubles, the one
    with the greater value never gets the sadder bucket. *)
Theorem mood_of_polarity_monotone (p1 p2 : spec_float) (q1 q2 : Q) :
  valid_binary prec emax p1 = true ->
  valid_binary prec emax p2 = true ->
  float_value p1 = Some q1 ->
  float_value p2 = Some q2 ->
  (q1 <= q2)%Q ->
  (rank (mood_of_polarity p1) <= rank (mood_of_polarity p2))%nat.
Proof.
  intros Hv1 Hv2 Hq1 Hq2 Hle.
  destruct (rank_of_value p1 q1 Hv1 Hq1)
    as [[-> A] | [[-> [A A']] | [[-> A] | [[-> [A A']] | [-> A]]]]];
  destruct (rank_of_value p2 q2 Hv2 Hq2)
    as [[-> B] | [[-> [B B']] | [[-> B] | [[-> [B B']] | [-> B]]]]];
  try lia; exfalso; lra.
Qed.

(* ================================================================= *)
(** ** /api/analyze: what each answer tells *)

Section AnalyzeAnswers.

Variable sentiment : value -> result (spec_float * spec_float).
Variable round2 : spec_float -> spec_float.
Variable str_exn : exn -> string.

Let analyze := analyze_sentiment sentiment round2 str_exn.

(** The handler past its guard: only an object has a ["text"] to score. *)
Lemma analyze_sentiment_scored (data : value) :
  truthy data = true ->
  contains "text" data = Ok true ->
  analyze (Ok data) =
  match data with
  | PyDict d =>
      match lookup "text" d with
      | Some t =>
          match sentiment t with
          | Ok s => analysis_result round2 (fst s) (snd s)
          | Raise e => jsonify [("error", PyStr (str_exn e))]%string 500
          end
      | None => jsonify [("error", PyStr (str_exn (KeyError (PyStr "text"))))]%string 500
      end
  | _ => jsonify [("error", PyStr (str_exn TypeError))]%string 500
  end.
Proof.
  intros Ht Hc. unfold analyze, analyze_sentiment.
  cbn [bind]. rewrite Ht. cbn [negb]. rewrite Hc. cbn [bind negb].
  destruct data as [| | | | | | d]; try reflexivity.
  cbn [getitem]. destruct (lookup "text" d) as [t |]; [| reflexivity].
  cbn [bind]. destruct (sentiment t); reflexivity.
Qed.

(** X11. The sentiment handler answers 200, 400 or 500 and nothing else, and
    it answers 200 exactly when the body is a JSON object with a ["text"] that
    the scorer accepts: a list or a string that merely contains ["text"] passes
    the guard and is then answered 500. *)
Theorem analyze_sentiment_status (get_json : result value) :
  In (status (analyze get_json)) [200; 400; 500]%Z /\
  (status (analyze get_json) = 200%Z <->
   exists d t s,
     get_json = Ok (PyDict d) /\ lookup "text" d = Some t /\ sentiment t = Ok s) /\
  (forall data,
      get_json = Ok data ->
      truthy data = true ->
      contains "text" data = Ok true ->
      (forall d, data <> PyDict d) ->
      analyze get_json = jsonify [("error", PyStr (str_exn TypeError))]%string 500).
Proof.
  split; [| split].
  - destruct get_json as [data | e]; [| cbn; tauto].
    destruct (truthy data) eqn:Ht; [| unfold analyze, analyze_sentiment; cbn [bind];
                                      rewrite Ht; cbn; tauto].
    destruct (contains "text" data) as [[|] | e] eqn:Hc;
      [| unfold analyze, analyze_sentiment; cbn [bind]; rewrite Ht; cbn [negb];
         rewrite Hc; cbn; tauto ..].
    rewrite (analyze_sentiment_scored data Ht Hc).
    destruct data as [| | | | | | d]; try (cbn; tauto).
    destruct (lookup "text" d) as [t |]; [| cbn; tauto].
    destruct (sentiment t) as [[p s] |]; [| cbn; tauto].
    rewrite analysis_result_status. cbn. tauto.
  - split.
    + destruct get_json as [data | e]; [| discriminate].
      destruct (truthy data) eqn:Ht; [| unfold analyze, analyze_sentiment; cbn [bind];
                                        rewrite Ht; discriminate].
      destruct (contains "text" data) as [[|] | e] eqn:Hc;
        [| unfold analyze, analyze_sentiment; cbn [bind]; rewrite Ht; cbn [negb];
           rewrite Hc; discriminate ..].
      rewrite (analyze_sentiment_scored data Ht Hc).
      destruct data as [| | | | | | d]; try discriminate.
      destruct (lookup "text" d) as [t |] eqn:Hl; [| discriminate].
      destruct (sentiment t) as [s |] eqn:Hs; [| discriminate].
      intros _. now exists d, t, s.
    + intros (d & t & s & -> & Hl & Hs).
      unfold analyze.
      rewrite (analyze_sentiment_on_text sentiment round2 str_exn d t Hl), Hs.
      apply analysis_result_status.
  - intros data -> Ht Hc Hnd.
    rewrite (analyze_sentiment_scored data Ht Hc).
    destruct data as [| | | | | | d]; try reflexivity.
    now elim (Hnd d).
Qed.

End AnalyzeAnswers.

(* ================================================================= *)
(** ** The chat page and the relay *)

Section ChatPageFacts.

Variable trim : string -> string.
Variable js_repr : option value -> string.
Variable str_exn : exn -> string.
Variable repr : value -> string.
Variable KNOWLEDGE_BASE : string.

Let send := sendMessage trim js_repr.
Let relay (key : option string) := chat str_exn repr key KNOWLEDGE_BASE.


Lemma addMessage_history (text : value) (sender : string) (page : chat_page) :
  chatHistory (addMessage js_repr text sender page) =
  chatHistory page ++ [history_entry sender text] /\
  List.length (messages (addMessage js_repr text sender page)) =
  S (List.length (messages page)) /\
  userInput (addMessage js_repr text sender page) = userInput page.
Proof.
  unfold addMessage. cbn. rewrite length_app. cbn. repeat split. lia.
Qed.

(** X12. A run of [sendMessage]: a blank input sends nothing and changes
    nothing.  Otherwise the page posts once, to [/api/chat], the message with
    a history that already ends in that message, and clears the input; its
    history then ends with the visitor's turn followed by the turn of the bot,
    and its display with the same two messages: the turn of the bot is the
    apology when the request or its decoding failed or the body is [null],
    the reply when the body is an object whose [response] is truthy, and
    there is none otherwise. *)
Theorem sendMessage_run (page : chat_page) (server : fetch_call -> fetched) :
  (trim (userInput page) = EmptyString ->
   run_js server (send page) = (page, [])) /\
  (trim (userInput page) <> EmptyString ->
   let m := trim (userInput page) in
   let recorded (sender : string) (text : value) :=
     PyDict [("role", PyStr sender); ("content", text)]%string in
   let shown (sender : string) (text : value) :=
     (("message " ++ sender)%string,
      ("<div class=" ++ dquote ++ "message-content" ++ dquote ++ ">"
       ++ js_string js_repr (Some text) ++ "</div>")%string) in
   let call :=
     mk_fetch "/api/chat" "POST" [("Content-Type", "application/json")]%string
              (PyDict [("message", PyStr m);
                       ("history",
                        PyList (chatHistory page
                                ++ [recorded "user"%string (PyStr m)]))]%string) in
   let bot :=
     match bot_turn_after (server call) with
     | Some text => [text]
     | None => []
     end in
   run_js server (send page) =
   (mk_chat_page EmptyString
      (messages page ++ shown "user"%string (PyStr m)
                     :: map (shown "bot"%string) bot)
      (chatHistory page ++ recorded "user"%string (PyStr m)
                       :: map (recorded "bot"%string) bot),
    [call])).
Proof.
  unfold send, sendMessage. split.
  - intros ->. reflexivity.
  - intros Hm. cbv zeta.
    destruct (String.eqb (trim (userInput page)) EmptyString) eqn:E;
      [apply String.eqb_eq in E; contradiction |].
    unfold addMessage, history_entry, apology, bot_turn_after, js_property.
    cbn [run_js userInput messages chatHistory].
    destruct (server _) as [| ok [data |]];
      cbn [map userInput messages chatHistory]; rewrite <- ?app_assoc;
      try reflexivity.
    destruct data as [| b | z | f | s | l | d];
      cbn [map userInput messages chatHistory]; rewrite <- ?app_assoc;
      try reflexivity.
    destruct (lookup "response" d) as [response |];
      [destruct (js_truthy response) |];
      cbn [map userInput messages chatHistory]; rewrite <- ?app_assoc;
      reflexivity.
Qed.


(** What the page keeps: its entries are the visitor's and the bot's, and
    the display holds the greeting and one message per entry. *)
Let kept (page : chat_page) : Prop :=
  Forall page_entry (chatHistory page) /\
  List.length (messages page) = S (List.length (chatHistory page)).

Lemma addMessage_kept (text : value) (sender : string) (page : chat_page) :
  (sender = "user" \/ sender = "bot")%string ->
  kept page -> kept (addMessage js_repr text sender page).
Proof.
  intros Hs [Hentries Hlen]. unfold kept, addMessage. cbn. split.
  - apply Forall_app. split; [exact Hentries |].
    constructor; [| constructor]. now exists sender, text.
  - rewrite !length_app. cbn. lia.
Qed.

Lemma chat_page_invariant_helper (page : chat_page) :
  reachable trim js_repr page -> kept page.
Proof.
  induction 1 as [| page typed _ IH | page server _ IH].
  - split; [constructor | reflexivity].
  - exact IH.
  - unfold sendMessage.
    destruct (String.eqb (trim (userInput page)) EmptyString); [exact IH |].
    cbn [run_js fst].
    assert (Hsent : kept (mk_chat_page EmptyString
                            (messages (addMessage js_repr
                                         (PyStr (trim (userInput page))) "user" page))
                            (chatHistory (addMessage js_repr
                                            (PyStr (trim (userInput page))) "user" page))))
      by (apply (addMessage_kept _ "user" page); [now left | exact IH]).
    destruct (server _) as [| ok [data |]]; cbn [run_js fst];
      try (apply addMessage_kept; [now right | exact Hsent]).
    destruct (js_property "response" data) as [[response |] |];
      [| exact Hsent | apply addMessage_kept; [now right | exact Hsent]].
    destruct (js_truthy response);
      [apply addMessage_kept; [now right | exact Hsent] | exact Hsent].
Qed.

(** X13. In every state the chat page can reach, each entry of its history
    is an object with role ["user"] or ["bot"] and a content, and the display
    holds one message per entry besides the greeting: the greeting is shown but
    never part of a request. *)
Theorem chat_page_invariant (page : chat_page) :
  reachable trim js_repr page ->
  Forall page_entry (chatHistory page) /\
  List.length (messages page) = S (List.length (chatHistory page)) /\
  (forall m, In m (messages page) -> m = ("message bot", greeting_html)%string \/
             exists sender html, m = (("message " ++ sender)%string, html) /\
                                 (sender = "user" \/ sender = "bot")%string).
Proof.
  intros Hreach.
  destruct (chat_page_invariant_helper page Hreach) as [Hentries Hlen].
  split; [exact Hentries | split; [exact Hlen |]].
  clear Hentries Hlen.
  induction Hreach as [| page typed _ IH | page server _ IH].
  - intros m [<- | []]. now left.
  - exact IH.
  - assert (Hadd : forall text sender pg,
               (sender = "user" \/ sender = "bot")%string ->
               (forall m, In m (messages pg) ->
                  m = ("message bot", greeting_html)%string \/
                  exists sender html, m = (("message " ++ sender)%string, html) /\
                                      (sender = "user" \/ sender = "bot")%string) ->
               forall m, In m (messages (addMessage js_repr text sender pg)) ->
                  m = ("message bot", greeting_html)%string \/
                  exists sender html, m = (("message " ++ sender)%string, html) /\
                                      (sender = "user" \/ sender = "bot")%string).
    { intros text sender pg Hs Hpg m Hin. unfold addMessage in Hin. cbn in Hin.
      apply in_app_or in Hin as [Hin | [<- | []]]; [now apply Hpg |].
      right. eexists sender, _. now split. }
    unfold sendMessage.
    destruct (String.eqb (trim (userInput page)) EmptyString); [exact IH |].
    cbn [run_js fst].
    pose proof (Hadd (PyStr (trim (userInput page))) "user"%string page
                  (or_introl eq_refl) IH) as Huser.
    destruct (server _) as [| ok [data |]]; cbn [run_js fst];
      try (apply Hadd; [now right | exact Huser]).
    destruct (js_property "response" data) as [[response |] |];
      [| exact Huser | apply Hadd; [now right | exact Huser]].
    destruct (js_truthy response); [apply Hadd; [now right | exact Huser] | exact Huser].
Qed.






End ChatPageFacts.

(* ================================================================= *)
(** ** The tracker page and the sentiment handler *)

Section TrackerPageFacts.

Variable trim : string -> string.
Variable js_repr : option value -> string.
Variable sentiment : value -> result (spec_float * spec_float).
Variable round2 : spec_float -> spec_float.
Variable str_exn : exn -> string.

Let analyze_page := analyzeMood trim js_repr.
Let handler (call : fetch_call) : fetched :=
  deliver (analyze_sentiment sentiment round2 str_exn (Ok (fetch_body call))).

(** X15. A run of [analyzeMood]: it ends with the result or the error line
    on display, never both and never neither; a blank text is not sent, the
    page asks for some text and leaves the button as it was; any other text is
    posted once, trimmed, to [/api/analyze], and whatever comes back the button
    ends enabled and labelled again. *)
Theorem analyzeMood_run (page : tracker_page) (server : fetch_call -> fetched) :
  let after := fst (run_js server (analyze_page page)) in
  let calls := snd (run_js server (analyze_page page)) in
  result_shown after = negb (error_shown after) /\
  moodText after = moodText page /\
  (trim (moodText page) = EmptyString ->
   calls = [] /\
   error_shown after = true /\
   error_text after = "Please write something before analyzing!"%string /\
   btn_disabled after = btn_disabled page /\
   btn_text after = btn_text page) /\
  (trim (moodText page) <> EmptyString ->
   calls = [mk_fetch "/api/analyze" "POST"
                     [("Content-Type", "application/json")]%string
                     (PyDict [("text", PyStr (trim (moodText page)))]%string)] /\
   btn_disabled after = false /\
   btn_text after = "Analyze Mood"%string).
Proof.
  cbv zeta. unfold analyze_page, analyzeMood.
  destruct (String.eqb (trim (moodText page)) EmptyString) eqn:E.
  - apply String.eqb_eq in E. cbn [run_js fst snd].
    split; [reflexivity | split; [reflexivity | split]].
    + intros _. repeat split.
    + intros Hne. contradiction.
  - apply String.eqb_neq in E. cbn [run_js fst snd].
    assert (Hshown : forall after : tracker_page,
               result_shown after = negb (error_shown after) ->
               moodText after = moodText page ->
               result_shown (enable_button after) =
               negb (error_shown (enable_button after)) /\
               moodText (enable_button after) = moodText page /\
               (trim (moodText page) = EmptyString ->
                [mk_fetch "/api/analyze" "POST"
                          [("Content-Type", "application/json")]%string
                          (PyDict [("text", PyStr (trim (moodText page)))]%string)] = [] /\
                error_shown (enable_button after) = true /\
                error_text (enable_button after) =
                "Please write something before analyzing!"%string /\
                btn_disabled (enable_button after) = btn_disabled page /\
                btn_text (enable_button after) = btn_text page) /\
               (trim (moodText page) <> EmptyString ->
                [mk_fetch "/api/analyze" "POST"
                          [("Content-Type", "application/json")]%string
                          (PyDict [("text", PyStr (trim (moodText page)))]%string)] =
                [mk_fetch "/api/analyze" "POST"
                          [("Content-Type", "application/json")]%string
                          (PyDict [("text", PyStr (trim (moodText page)))]%string)] /\
                btn_disabled (enable_button after) = false /\
                btn_text (enable_button after) = "Analyze Mood"%string)).
    { intros after H1 H2.
      split; [exact H1 | split; [exact H2 | split]].
      - intros Hblank. contradiction.
      - intros _. repeat split. }
    destruct (server _) as [| ok [data |]]; cbn [run_js fst snd];
      try (apply Hshown; reflexivity).
    destruct ok.
    + destruct data as [| | | | | | d];
        try (cbn [js_property]; apply Hshown; reflexivity).
      * destruct (eq_str _ "success"); [apply Hshown; reflexivity |].
        cbn [js_property]. apply Hshown; reflexivity.
    + destruct (js_property "error" data); apply Hshown; reflexivity.
Qed.

(** X16. The tracker page and the handler together, the answer reaching the
    page as JSON: a text that is not blank is never answered 400; when the
    scorer returns, the page shows the emoji, the mood and the color of the
    bucket of the polarity, and no error; when the scorer raises, the page
    shows the text of the exception, or its own default when that text is
    empty, and no result. *)
Theorem tracker_page_shows_bucket (page : tracker_page) :
  trim (moodText page) <> EmptyString ->
  let text := PyStr (trim (moodText page)) in
  let after := fst (run_js handler (analyze_page page)) in
  (forall call, In call (snd (run_js handler (analyze_page page))) ->
     status (analyze_sentiment sentiment round2 str_exn (Ok (fetch_body call)))
     <> 400%Z) /\
  (forall p s emoji mood color,
      sentiment text = Ok (p, s) ->
      float_value (round2 p) <> None ->
      float_value (round2 s) <> None ->
      mood_of_polarity p = (emoji, mood, color) ->
      result_shown after = true /\
      error_shown after = false /\
      emoji_text after = emoji /\
      moodName_text after = mood /\
      result_background after = (color ++ "20")%string /\
      result_border after = ("2px solid " ++ color)%string) /\
  (forall e,
      sentiment text = Raise e ->
      result_shown after = false /\
      error_shown after = true /\
      error_text after =
      if String.eqb (str_exn e) EmptyString then "An error occurred"%string
      else str_exn e).
Proof.
  intros Hne. cbv zeta. unfold analyze_page, analyzeMood, handler.
  destruct (String.eqb (trim (moodText page)) EmptyString) eqn:E;
    [apply String.eqb_eq in E; contradiction |].
  cbn [run_js fst snd fetch_body].
  set (t := trim (moodText page)) in *.
  rewrite (analyze_sentiment_on_text sentiment round2 str_exn
             [("text", PyStr t)]%string (PyStr t) eq_refl).
  split; [| split].
  - intros call [<- | []]. cbn [fetch_body].
    rewrite (analyze_sentiment_on_text sentiment round2 str_exn
               [("text", PyStr t)]%string (PyStr t) eq_refl).
    destruct (sentiment (PyStr t)) as [[p s] | e]; [| discriminate].
    cbn [fst snd]. rewrite analysis_result_status. discriminate.
  - intros p s emoji mood color Hs _ _ Hm. rewrite Hs. cbn [fst snd].
    unfold analysis_result. rewrite Hm. cbn. repeat split.
  - intros e He. rewrite He. unfold deliver. cbn.
    destruct (String.eqb (str_exn e) EmptyString) eqn:Ee; cbn; repeat split.
Qed.

End TrackerPageFacts.

(* ================================================================= *)
(** ** The further theorems at sample inputs *)

Lemma chat_timeout_only_witness :
  no_timeout (Ok (PyDict hello_request)) /\
  (forall call response,
      always (Raise (Timeout "Read timed out.")) call = Ok response ->
      no_timeout (response_json response)) /\
  status (fst (run (always (Raise (Timeout "Read timed out.")))
                   (chat no_text no_repr (Some sample_key) sample_knowledge
                         (Ok (PyDict hello_request))))) = 504%Z.
Proof.
  assert (H1 : no_timeout (Ok (PyDict hello_request))) by (intros e H; discriminate H).
  assert (H2 : forall call response,
             always (Raise (Timeout "Read timed out.")) call = Ok response ->
             no_timeout (response_json response))
    by (intros call response H; discriminate H).
  split; [exact H1 | split; [exact H2 |]].
  apply (proj2 (chat_timeout_only no_text no_repr sample_knowledge (Some sample_key)
                  (Ok (PyDict hello_request))
                  (always (Raise (Timeout "Read timed out."))) H1 H2)).
  exists sample_key, hello_contents, "Read timed out."%string.
  repeat split. discriminate.
Defined.

Lemma chat_window_only_witness :
  lookup "message" long_request = Some (PyStr "hello") /\
  lookup "message" recent_request = Some (PyStr "hello") /\
  get "history" (PyList []) (PyDict long_request) = Ok (PyList (conversation 20)) /\
  get "history" (PyList []) (PyDict recent_request) =
  Ok (PyList (lastn 8 (conversation 20))) /\
  lastn (Nat.min (List.length (conversation 20)) 8) (conversation 20) =
  lastn (Nat.min (List.length (lastn 8 (conversation 20))) 8)
        (lastn 8 (conversation 20)) /\
  chat no_text no_repr (Some sample_key) sample_knowledge (Ok (PyDict long_request)) =
  chat no_text no_repr (Some sample_key) sample_knowledge (Ok (PyDict recent_request)).
Proof.
  repeat (split; [reflexivity |]).
  exact (chat_window_only no_text no_repr sample_knowledge (Some sample_key)
           long_request recent_request (PyStr "hello")
           (conversation 20) (lastn 8 (conversation 20))
           eq_refl eq_refl eq_refl eq_refl eq_refl).
Defined.

Lemma chat_malformed_turn_witness :
  sample_key <> EmptyString /\
  lookup "message" broken_request = Some (PyStr "hello") /\
  get "history" (PyList []) (PyDict broken_request) =
  Ok (PyList [PyDict [("role", PyStr "user")]%string]) /\
  Exists (fun msg => ~ has_role_and_content msg)
         (lastn (Nat.min 1 8) [PyDict [("role", PyStr "user")]%string]) /\
  exists e,
    interpreter_error e = true /\
    run (always (Ok walk_response))
        (chat no_text no_repr (Some sample_key) sample_knowledge
              (Ok (PyDict broken_request))) =
    (internal_error (no_text e), []).
Proof.
  assert (Hkey : sample_key <> EmptyString) by discriminate.
  assert (Hbad : Exists (fun msg => ~ has_role_and_content msg)
                   (lastn (Nat.min 1 8) [PyDict [("role", PyStr "user")]%string])).
  { apply Exists_cons_hd. intros (r & c & _ & Hc). discriminate Hc. }
  split; [exact Hkey | split; [reflexivity | split; [reflexivity | split; [exact Hbad |]]]].
  exact (chat_malformed_turn no_text no_repr sample_knowledge sample_key
           broken_request (PyStr "hello") [PyDict [("role", PyStr "user")]%string]
           (always (Ok walk_response)) Hkey eq_refl eq_refl Hbad).
Defined.


Lemma mood_of_polarity_monotone_witness :
  valid_binary prec emax f_0 = true /\
  valid_binary prec emax f_0_3 = true /\
  float_value f_0 = Some 0%Q /\
  float_value f_0_3 = Some (5404319552844595 # 18014398509481984)%Q /\
  (0 <= 5404319552844595 # 18014398509481984)%Q /\
  (rank (mood_of_polarity f_0) <= rank (mood_of_polarity f_0_3))%nat.
Proof.
  assert (Hle : (0 <= 5404319552844595 # 18014398509481984)%Q)
    by (unfold Qle; cbn; lia).
  repeat (split; [reflexivity |]).
  split; [exact Hle |].
  exact (mood_of_polarity_monotone f_0 f_0_3 0%Q
           (5404319552844595 # 18014398509481984)%Q
           eq_refl eq_refl eq_refl eq_refl Hle).
Defined.

Lemma chat_page_invariant_witness :
  reachable no_trim no_js_repr
            (fst (run_js offline (sendMessage no_trim no_js_repr typed_page))) /\
  List.length (messages (fst (run_js offline (sendMessage no_trim no_js_repr typed_page)))) =
  S (List.length (chatHistory (fst (run_js offline
                                          (sendMessage no_trim no_js_repr typed_page))))).
Proof.
  assert (Hreach : reachable no_trim no_js_repr
                     (fst (run_js offline (sendMessage no_trim no_js_repr typed_page))))
    by (apply reach_sent; apply (reach_typed no_trim no_js_repr initial_chat_page);
        apply reach_loaded).
  split; [exact Hreach |].
  exact (proj1 (proj2 (chat_page_invariant no_trim no_js_repr _ Hreach))).
Defined.


Lemma tracker_page_shows_bucket_witness :
  no_trim (moodText calm_page) <> EmptyString /\
  empty_lexicon (PyStr "calm") = Ok (f_0, f_0) /\
  moodName_text
    (fst (run_js (fun call =>
                    deliver (analyze_sentiment empty_lexicon (fun f => f) no_text
                                               (Ok (fetch_body call))))
                 (analyzeMood no_trim no_js_repr calm_page))) = "Neutral"%string.
Proof.
  assert (Hm : no_trim (moodText calm_page) <> EmptyString) by discriminate.
  assert (Hv : float_value f_0 <> None) by discriminate.
  split; [exact Hm | split; [reflexivity |]].
  exact (proj1 (proj2 (proj2 (proj2
           (proj1 (proj2 (tracker_page_shows_bucket no_trim no_js_repr empty_lexicon
                            (fun f => f) no_text calm_page Hm))
                  f_0 f_0 _ _ _ eq_refl Hv Hv eq_refl))))).
Defined.

Lemma sendMessage_run_witness :
  let html (text : string) :=
    ("<div class=" ++ dquote ++ "message-content" ++ dquote ++ ">"
     ++ text ++ "</div>")%string in
  let answered (_ : fetch_call) :=
    Responded true (Some (PyDict [("response", PyStr "hi there");
                                  ("status", PyStr "success")]%string)) in
  let call :=
    mk_fetch "/api/chat" "POST" [("Content-Type", "application/json")]%string
             (PyDict [("message", PyStr "hello");
                      ("history",
                       PyList [PyDict [("role", PyStr "user");
                                       ("content", PyStr "hello")]])]%string) in
  run_js answered (sendMessage no_trim no_js_repr typed_page) =
  (mk_chat_page EmptyString
     [("message bot", greeting_html); ("message user", html "hello");
      ("message bot", html "hi there")]%string
     [PyDict [("role", PyStr "user"); ("content", PyStr "hello")];
      PyDict [("role", PyStr "bot"); ("content", PyStr "hi there")]]%string,
   [call]) /\
  run_js offline (sendMessage no_trim no_js_repr typed_page) =
  (mk_chat_page EmptyString
     [("message bot", greeting_html); ("message user", html "hello");
      ("message bot", html "Sorry, there was an error. Please try again.")]%string
     [PyDict [("role", PyStr "user"); ("content", PyStr "hello")];
      PyDict [("role", PyStr "bot");
              ("content", PyStr "Sorry, there was an error. Please try again.")]]%string,
   [call]).
Proof.
  intros html answered call.
  assert (Hm : no_trim (userInput typed_page) <> EmptyString) by discriminate.
  split.
  - exact (proj2 (sendMessage_run no_trim no_js_repr typed_page answered) Hm).
  - exact (proj2 (sendMessage_run no_trim no_js_repr typed_page offline) Hm).
Defined.

